(** * Maxy: frame codec, message encoder and device model

    A shallow embedding of [Maxy/__init__.py].  Python integers are [Z];
    a [bytes]/[bytearray] value is a [list Z] whose elements are the
    integers Python yields when iterating over it (0..255); the
    dictionary behind [DictObject] is a [gmap string _]; Python lists
    are lists read with [!!] and changed in place with [alter].
    Exceptions are values of [exn]; a function that can raise returns a
    [result], and a method that mutates the controller and can raise
    returns the controller it leaves behind together with a [result], so
    that what was assigned before an exception stays assigned.  Module
    and sub-module objects live in the controller's [index]; a method's
    [self] is the position of its object there.  The serial port is the
    record [Serial]: what is handed to [write] is appended to
    [written]. *)

From Stdlib Require Import ZArith Lia.
From stdpp Require Import gmap strings list fin_maps.

Local Open Scope Z_scope.

(** ** Exceptions and results *)

Inductive exn : Type :=
  | ValueError_type (param_name : string)
      (* "Parameter '..' must be an int, received .." *)
  | ValueError_range (param_name : string) (val minimum maximum : Z)
      (* "Parameter '..' is outside the allowed range. Got '..',
          expected it to be min-max" *)
  | OverflowError            (* int.to_bytes: value does not fit *)
  | TypeError                (* "You can't change the target directly on
                                 this module. ..." *)
  | IOError                  (* "The serial connection is closed" *)
  | SerialTimeoutException   (* raised by the port on write *)
  | SerialException          (* raised by the port on write *)
  | AttributeError (item : string)
  | IndexError.

Inductive result (A : Type) : Type :=
  | Ok (a : A)
  | Raise (e : exn).
Arguments Ok {A} a.
Arguments Raise {A} e.

Definition bind {A B : Type} (r : result A) (k : A -> result B) : result B :=
  match r with
  | Ok a => k a
  | Raise e => Raise e
  end.

Notation "'let*' x ':=' r 'in' k" := (bind r (fun x => k))
  (at level 10, x name, r at level 100, k at level 200).

(** The range message of [range_validate_int]. *)
Definition is_range_error (e : exn) : bool :=
  match e with ValueError_range _ _ _ _ => true | _ => false end.

(** ** Frame codec *)

Abbreviation bytes := (list Z).

(** [escape_message]: the loop appends to [result], one input byte at a
    time. *)
Definition escape_step (result : bytes) (c : Z) : bytes :=
  let result := if 0xfc <=? c then result ++ [0xfc] else result in
  result ++ [c].

Definition escape_message (msg : bytes) : bytes :=
  fold_left escape_step msg [].

(** The frame [send_message] builds: [b"\xfd" + escape_message(msg) + b"\xfe"]. *)
Definition frame (msg : bytes) : bytes :=
  [0xfd] ++ escape_message msg ++ [0xfe].

(** ** Message encoder *)

(** [range_validate_int] on an integer argument.  The [isinstance] test
    of the source cannot fail here: every argument of the model is an
    integer. *)
Definition range_validate_int (val minimum maximum : Z) (param_name : string)
  : result Z :=
  if (minimum <=? val) && (val <=? maximum) then Ok val
  else Raise (ValueError_range param_name val minimum maximum).

(** Big-endian base-256 digits of [v], [length] of them; a negative [v]
    gives its two's complement. *)
Fixpoint be_bytes (length : nat) (v : Z) : bytes :=
  match length with
  | O => []
  | S n => be_bytes n (v / 256) ++ [v mod 256]
  end.

(** [int.to_bytes(length=.., byteorder="big", signed=..)]. *)
Definition to_bytes (v : Z) (length : nat) (signed : bool) : result bytes :=
  let bits := 8 * Z.of_nat length in
  if signed then
    if (- 2 ^ (bits - 1) <=? v) && (v <? 2 ^ (bits - 1))
    then Ok (be_bytes length v) else Raise OverflowError
  else
    if (0 <=? v) && (v <? 2 ^ bits)
    then Ok (be_bytes length v) else Raise OverflowError.

(** [int.from_bytes(.., byteorder="big", signed=True)], used to read a
    target field back. *)
Definition from_bytes_unsigned (raw : bytes) : Z :=
  fold_left (fun acc b => acc * 256 + b) raw 0.

Definition from_bytes_signed (raw : bytes) : Z :=
  let u := from_bytes_unsigned raw in
  let bits := 8 * Z.of_nat (length raw) in
  if u <? 2 ^ (bits - 1) then u else u - 2 ^ bits.

Module MaxyMessages.

Definition MID_RESET_CONFIG : bytes := [0x32].
Definition MID_SET_ALL_INTENSITY : bytes := [0x33].
Definition MID_SET_MODULE_TYPE : bytes := [0x3a].
Definition MID_ENABLE_MODULE : bytes := [0x3b].

Definition MID_SET_MODULE_TARGET : bytes := [0x42].
Definition MID_SET_SUB_MODULE_TARGET : bytes := [0x43].
Definition MID_SET_MODULE_IMMEDIATE_TARGET : bytes := [0x44].
Definition MID_SET_SUB_MODULE_IMMEDIATE_TARGET : bytes := [0x45].

Definition MID_SET_MODULE_INTENSITY : bytes := [0x46].
Definition MID_SET_MODULE_SPEED_DIVIDER : bytes := [0x47].

Definition reset_all_module_config_message : result bytes :=
  Ok MID_RESET_CONFIG.

Definition set_all_module_intensity (intensity : Z) : result bytes :=
  let* _ := range_validate_int intensity 0 15 "intensity" in
  let* intensity_raw := to_bytes intensity 1 false in
  Ok (MID_SET_ALL_INTENSITY ++ intensity_raw).

Definition set_module_target_message (module_index target : Z)
  : result bytes :=
  let* _ := range_validate_int module_index 0 63 "module_index" in
  let* _ := range_validate_int target (-9999999) 99999999 "target" in
  let* module_raw := to_bytes module_index 1 false in
  let* target_raw := to_bytes target 4 true in
  Ok (MID_SET_MODULE_TARGET ++ module_raw ++ target_raw).

Definition set_module_immediate_target_message (module_index target : Z)
  : result bytes :=
  let* _ := range_validate_int module_index 0 63 "module_index" in
  let* _ := range_validate_int target (-9999999) 99999999 "target" in
  let* module_raw := to_bytes module_index 1 false in
  let* target_raw := to_bytes target 4 true in
  Ok (MID_SET_MODULE_IMMEDIATE_TARGET ++ module_raw ++ target_raw).

Definition set_sub_module_immediate_target_message
    (module_index sub_module target : Z) : result bytes :=
  let* _ := range_validate_int module_index 0 63 "module_index" in
  let* _ := range_validate_int target (-9999999) 99999999 "target" in
  let* module_raw := to_bytes module_index 1 false in
  let* sub_module_raw := to_bytes sub_module 1 false in
  let* target_raw := to_bytes target 4 true in
  Ok (MID_SET_SUB_MODULE_IMMEDIATE_TARGET ++ module_raw ++ sub_module_raw
        ++ target_raw).

Definition set_sub_module_target_message
    (module_index sub_module target : Z) : result bytes :=
  let* _ := range_validate_int module_index 0 63 "module_index" in
  let* _ := range_validate_int sub_module 0 7 "sub_module" in
  let* _ := range_validate_int target (-9999999) 99999999 "target" in
  let* module_raw := to_bytes module_index 1 false in
  let* sub_module_raw := to_bytes sub_module 1 false in
  let* target_raw := to_bytes target 4 true in
  Ok (MID_SET_SUB_MODULE_TARGET ++ module_raw ++ sub_module_raw
        ++ target_raw).

(** The second check of the source validates [module_index], under the
    name "intensity"; [intensity] itself only meets [to_bytes]. *)
Definition set_module_intensity (module_index intensity : Z)
  : result bytes :=
  let* _ := range_validate_int module_index 0 63 "module_index" in
  let* _ := range_validate_int module_index 0 15 "intensity" in
  let* module_raw := to_bytes module_index 1 false in
  let* intensity_raw := to_bytes intensity 1 false in
  Ok (MID_SET_MODULE_INTENSITY ++ module_raw ++ intensity_raw).

(** The source names the second parameter [intensity], validates
    [module_index] a second time and prefixes
    [MID_SET_MODULE_INTENSITY]. *)
Definition set_module_speed_divider (module_index intensity : Z)
  : result bytes :=
  let* _ := range_validate_int module_index 0 63 "module_index" in
  let* _ := range_validate_int module_index 0 65000 "speed_divider" in
  let* module_raw := to_bytes module_index 1 false in
  let* speed_divider_raw := to_bytes intensity 2 false in
  Ok (MID_SET_MODULE_INTENSITY ++ module_raw ++ speed_divider_raw).

Definition set_module_type (module_index module_type : Z) : result bytes :=
  let* _ := range_validate_int module_index 0 63 "module_index" in
  let* _ := range_validate_int module_type 0 63 "module_type" in
  let* module_raw := to_bytes module_index 1 false in
  let* module_type_raw := to_bytes module_type 1 false in
  Ok (MID_SET_MODULE_TYPE ++ module_raw ++ module_type_raw).

End MaxyMessages.

(** ** Device model *)

Definition clamp (value min_value max_value : Z) : Z :=
  Z.min max_value (Z.max min_value value).

(** The module classes and their class attributes. *)
Inductive module_class : Type :=
  | Class_MaxyModule
  | Class_MaxyModule_8x7seg
  | Class_MaxyModule_2x4x7seg.

Definition SUB_MODULE_COUNT (cls : module_class) : nat :=
  match cls with
  | Class_MaxyModule => 1
  | Class_MaxyModule_8x7seg => 1
  | Class_MaxyModule_2x4x7seg => 2
  end.

Definition TARGET_MIN (cls : module_class) : Z :=
  match cls with
  | Class_MaxyModule => -9999999
  | Class_MaxyModule_8x7seg => -9999999
  | Class_MaxyModule_2x4x7seg => -999
  end.

Definition TARGET_MAX (cls : module_class) : Z :=
  match cls with
  | Class_MaxyModule => 99999999
  | Class_MaxyModule_8x7seg => 99999999
  | Class_MaxyModule_2x4x7seg => 9999
  end.

Definition MODULE_TYPE_ID (cls : module_class) : Z :=
  match cls with
  | Class_MaxyModule => 0
  | Class_MaxyModule_8x7seg => 3
  | Class_MaxyModule_2x4x7seg => 4
  end.

Definition ALLOW_MAIN_MODULE_TARGET_CHANGES (cls : module_class) : bool :=
  match cls with
  | Class_MaxyModule => true
  | Class_MaxyModule_8x7seg => true
  | Class_MaxyModule_2x4x7seg => false
  end.

Record MaxySubModule : Type := {
  sub_module_id : Z;
  _target : Z
}.

Record MaxyModule : Type := {
  module_class_of : module_class;
  module_index : Z;
  _intensity : Z;
  sub_modules : list MaxySubModule
}.

(** The port object of the serial library, as far as the controller
    uses it: whether it is open, whether [write] fails after taking the
    bytes (with a timeout or with another serial error), and the byte
    sequences handed to [write] so far. *)
Inductive port_fault : Type :=
  | WriteTimeout
  | WriteFailure.

Definition exn_of_fault (f : port_fault) : exn :=
  match f with
  | WriteTimeout => SerialTimeoutException
  | WriteFailure => SerialException
  end.

Record Serial : Type := {
  isOpen : bool;
  write_fault : option port_fault;
  written : list bytes
}.

(** What a name of the controller's [DictObject] refers to: a module or
    a sub-module object, by its place in [index].  The dictionary and
    [index] hold the same objects, so a reference is a position, not a
    copy. *)
Inductive unit_ref : Type :=
  | ModuleRef (pos : nat)
  | SubModuleRef (pos sub : nat).

Record MaxyController : Type := {
  _serial : option Serial;
  index : list MaxyModule;
  name : gmap string unit_ref
}.

Record MaxModuleDef : Type := {
  def_name : option string;
  def_module_type : module_class;
  def_sub_module_names : option (list (option string))
}.

(** Python truthiness of a name: [None] and the empty string are false. *)
Definition truthy_name (n : option string) : option string :=
  match n with
  | Some s => if String.eqb s "" then None else Some s
  | None => None
  end.

(** [MaxySubModule.__init__] and [MaxyModule.__init__]. *)
Definition MaxySubModule_init (sub_module_id : Z) : MaxySubModule :=
  {| sub_module_id := sub_module_id; _target := 0 |}.

Definition MaxyModule_init (cls : module_class) (module_index : Z)
  : MaxyModule :=
  {| module_class_of := cls;
     module_index := module_index;
     _intensity := 0;
     sub_modules :=
       map (fun i => MaxySubModule_init (Z.of_nat i))
           (seq 0 (SUB_MODULE_COUNT cls)) |}.

Definition MaxyController_init : MaxyController :=
  {| _serial := None; index := []; name := ∅ |}.

(** [define_modules]: the inner loop over
    [zip(sub_module_names, range(SUB_MODULE_COUNT))]. *)
Definition name_sub_module (pos : nat) (d : gmap string unit_ref)
    (entry : option string * nat) : gmap string unit_ref :=
  match truthy_name (fst entry) with
  | Some n => <[n := SubModuleRef pos (snd entry)]> d
  | None => d
  end.

(** One turn of the loop over [enumerate(module_definitions)]. *)
Definition define_step (c : MaxyController)
    (entry : nat * option MaxModuleDef) : MaxyController :=
  match snd entry with
  | None => c
  | Some module_def =>
      let cls := def_module_type module_def in
      let pos := length (index c) in
      let new_module := MaxyModule_init cls (Z.of_nat (fst entry)) in
      let index' := index c ++ [new_module] in
      let name' :=
        match truthy_name (def_name module_def) with
        | Some n => <[n := ModuleRef pos]> (name c)
        | None => name c
        end in
      let name'' :=
        if (1 <? SUB_MODULE_COUNT cls)%nat then
          match def_sub_module_names module_def with
          | Some (n :: ns) =>
              fold_left (name_sub_module pos)
                (zip (n :: ns) (seq 0 (SUB_MODULE_COUNT cls))) name'
          | Some [] | None => name'
          end
        else name' in
      {| _serial := _serial c; index := index'; name := name'' |}
  end.

Definition define_modules (module_definitions : list (option MaxModuleDef))
    (c : MaxyController) : MaxyController :=
  fold_left define_step
    (zip (seq 0 (length module_definitions)) module_definitions)
    {| _serial := _serial c; index := []; name := ∅ |}.

(** *** Methods that mutate the controller and may raise *)

Definition M (A : Type) : Type := MaxyController -> MaxyController * result A.

Definition ret {A : Type} (a : A) : M A := fun c => (c, Ok a).
Definition raise {A : Type} (e : exn) : M A := fun c => (c, Raise e).
Definition lift {A : Type} (r : result A) : M A := fun c => (c, r).

Definition Mbind {A B : Type} (m : M A) (k : A -> M B) : M B :=
  fun c =>
    match m c with
    | (c', Ok a) => k a c'
    | (c', Raise e) => (c', Raise e)
    end.

Notation "'let!' x ':=' m 'in' k" := (Mbind m (fun x => k))
  (at level 10, x name, m at level 100, k at level 200).

(** [maxy.index[pos]] and [module.sub_modules[sub]]. *)
Definition get_module (pos : nat) : M MaxyModule :=
  fun c =>
    match index c !! pos with
    | Some m => (c, Ok m)
    | None => (c, Raise IndexError)
    end.

Definition get_sub_module (pos sub : nat) : M MaxySubModule :=
  let! m := get_module pos in
  match sub_modules m !! sub with
  | Some sm => ret sm
  | None => raise IndexError
  end.

(** The assignments [self._target = target] and
    [self._intensity = intensity]. *)
Definition with_target (sub : nat) (target : Z) (m : MaxyModule)
  : MaxyModule :=
  {| module_class_of := module_class_of m;
     module_index := module_index m;
     _intensity := _intensity m;
     sub_modules :=
       alter (fun sm => {| sub_module_id := sub_module_id sm;
                           _target := target |}) sub (sub_modules m) |}.

Definition with_intensity (intensity : Z) (m : MaxyModule) : MaxyModule :=
  {| module_class_of := module_class_of m;
     module_index := module_index m;
     _intensity := intensity;
     sub_modules := sub_modules m |}.

Definition update_module (pos : nat) (f : MaxyModule -> MaxyModule) : M unit :=
  fun c =>
    ({| _serial := _serial c;
        index := alter f pos (index c);
        name := name c |}, Ok tt).

(** [Serial.write]: the bytes are handed to the port, which may then
    raise. *)
Definition write_outcome (s : Serial) : result unit :=
  match write_fault s with
  | None => Ok tt
  | Some f => Raise (exn_of_fault f)
  end.

Definition Serial_write (s : Serial) (data : bytes) : Serial * result unit :=
  ({| isOpen := isOpen s;
      write_fault := write_fault s;
      written := written s ++ [data] |},
   write_outcome s).

(** The [serial] property. *)
Definition serial : M Serial :=
  fun c =>
    match _serial c with
    | Some s => if isOpen s then (c, Ok s) else (c, Raise IOError)
    | None => (c, Raise IOError)
    end.

Definition send_message (msg : bytes) : M unit :=
  let! s := serial in
  fun c =>
    let '(s', r) := Serial_write s (frame msg) in
    ({| _serial := Some s'; index := index c; name := name c |}, r).

(** [MaxySubModule._set_target], the setter of the [target] property.
    [self] is the sub-module [sub] of the module at [pos]. *)
Definition MaxySubModule__set_target (pos sub : nat) (target : Z) : M unit :=
  let! module := get_module pos in
  let! self := get_sub_module pos sub in
  let cls := module_class_of module in
  let target := clamp target (TARGET_MIN cls) (TARGET_MAX cls) in
  if negb (target =? _target self) then
    let! _ := update_module pos (with_target sub target) in
    let! msg := lift (MaxyMessages.set_sub_module_target_message
                        (module_index module) (sub_module_id self) target) in
    send_message msg
  else ret tt.

(** [MaxySubModule.set_immediate_target]. *)
Definition MaxySubModule_set_immediate_target (pos sub : nat) (target : Z)
  : M unit :=
  let! module := get_module pos in
  let! self := get_sub_module pos sub in
  let cls := module_class_of module in
  let target := clamp target (TARGET_MIN cls) (TARGET_MAX cls) in
  if negb (target =? _target self) then
    let! _ := update_module pos (with_target sub target) in
    let! msg := lift (MaxyMessages.set_sub_module_immediate_target_message
                        (module_index module) (sub_module_id self) target) in
    send_message msg
  else ret tt.

(** [MaxyModule._set_intensity], the setter of the [intensity] property. *)
Definition MaxyModule__set_intensity (pos : nat) (intensity : Z) : M unit :=
  let! self := get_module pos in
  let intensity := clamp intensity 0 15 in
  if negb (intensity =? _intensity self) then
    let! _ := update_module pos (with_intensity intensity) in
    let! msg := lift (MaxyMessages.set_module_intensity
                        (module_index self) intensity) in
    send_message msg
  else ret tt.

(** [MaxyModule._set_target], the setter of the module's [target]
    property; the clamp after the assignment has no effect. *)
Definition MaxyModule__set_target (pos : nat) (target : Z) : M unit :=
  let! self := get_module pos in
  if negb (ALLOW_MAIN_MODULE_TARGET_CHANGES (module_class_of self)) then
    raise TypeError
  else
    let! _ := MaxySubModule__set_target pos 0 target in
    let target :=
      clamp target (TARGET_MIN (module_class_of self))
                   (TARGET_MAX (module_class_of self)) in
    ret tt.

(** [MaxyModule.set_immediate_target]. *)
Definition MaxyModule_set_immediate_target (pos : nat) (target : Z) : M unit :=
  let! self := get_module pos in
  if negb (ALLOW_MAIN_MODULE_TARGET_CHANGES (module_class_of self)) then
    raise TypeError
  else MaxySubModule_set_immediate_target pos 0 target.

(** [configure_module_types], [set_global_intensity] and [connect]; the
    port object that [serial.Serial(..)] returns is the argument
    [port]. *)
Fixpoint for_each {A : Type} (body : A -> M unit) (l : list A) : M unit :=
  match l with
  | [] => ret tt
  | x :: l' => let! _ := body x in for_each body l'
  end.

Definition configure_module_types : M unit :=
  fun c =>
    for_each
      (fun module =>
         let! msg := lift (MaxyMessages.set_module_type
                             (module_index module)
                             (MODULE_TYPE_ID (module_class_of module))) in
         send_message msg)
      (index c) c.

Definition set_global_intensity (intensity : Z) : M unit :=
  let! msg := lift (MaxyMessages.set_all_module_intensity intensity) in
  send_message msg.

Definition connect (port : Serial) : M unit :=
  let! _ := (fun c => ({| _serial := Some port; index := index c;
                          name := name c |}, Ok tt)) in
  configure_module_types.

(** The attributes the source gives a [DictObject]: the instance
    attribute [values] and the methods of the class.  Normal attribute
    lookup finds these, and [__getattr__] is not asked for them. *)
Definition DictObject_attributes : list string :=
  ["values"; "__init__"; "clear"; "__getitem__"; "__setitem__";
   "__getattr__"; "__contains__"; "get"; "__repr__"; "__iter__"; "__str__"].

Definition DictObject_own_attribute (item : string) : bool :=
  existsb (String.eqb item) DictObject_attributes.

(** [DictObject.__getattr__] on the controller's [name], which Python
    calls for [maxy.name.<item>] once normal attribute lookup has not
    found [item]. *)
Definition DictObject_getattr (item : string) : M unit_ref :=
  fun c =>
    match name c !! item with
    | Some u => (c, Ok u)
    | None => (c, Raise (AttributeError item))
    end.

(** The assignments [u.target = target] and [u.immediate_target = target]
    on a module or a sub-module. *)
Definition assign_target (u : unit_ref) (target : Z) : M unit :=
  match u with
  | ModuleRef pos => MaxyModule__set_target pos target
  | SubModuleRef pos sub => MaxySubModule__set_target pos sub target
  end.

Definition assign_immediate_target (u : unit_ref) (target : Z) : M unit :=
  match u with
  | ModuleRef pos => MaxyModule_set_immediate_target pos target
  | SubModuleRef pos sub => MaxySubModule_set_immediate_target pos sub target
  end.

(** [maxy.name.<item>.target = target] and
    [maxy.name.<item>.immediate_target = target].  For one of
    [DictObject]'s own attributes, [maxy.name.<item>] is the dictionary
    [values] or a bound method, whatever is registered under that name,
    and the assignment raises [AttributeError] for the attribute being
    assigned; for any other name [__getattr__] answers.  Beyond the
    attributes of the source, a [DictObject] has those it inherits from
    the interpreter's [object], whose names all start with two
    underscores: what the code does for such a name is not decided by
    the source, and the statements about names leave these names
    out. *)
Definition set_target (item : string) (target : Z) (immediate : bool)
  : M unit :=
  if DictObject_own_attribute item then
    raise (AttributeError (if immediate then "immediate_target"
                           else "target"))
  else
    let! u := DictObject_getattr item in
    if immediate then assign_immediate_target u target
    else assign_target u target.

(** *** Reading the state *)

Definition sink (c : MaxyController) : list bytes :=
  match _serial c with
  | Some s => written s
  | None => []
  end.

Definition cached_target (c : MaxyController) (pos sub : nat) : option Z :=
  m ← index c !! pos; sm ← sub_modules m !! sub; Some (_target sm).

Definition cached_intensity (c : MaxyController) (pos : nat) : option Z :=
  m ← index c !! pos; Some (_intensity m).

Definition open_port : Serial :=
  {| isOpen := true; write_fault := None; written := [] |}.

Definition Right1 : MaxModuleDef :=
  {| def_name := Some "Right1";
     def_module_type := Class_MaxyModule_8x7seg;
     def_sub_module_names := None |}.

Definition tail_def : MaxModuleDef :=
  {| def_name := Some "tail";
     def_module_type := Class_MaxyModule_2x4x7seg;
     def_sub_module_names := Some [Some "tail1"; Some "tail2"] |}.

(** The module object one turn of the loop of [define_modules] appends
    to [index], if any. *)
Definition defined_module (entry : nat * option MaxModuleDef)
  : option MaxyModule :=
  match snd entry with
  | Some module_def =>
      Some (MaxyModule_init (def_module_type module_def)
                            (Z.of_nat (fst entry)))
  | None => None
  end.

(** The invariant on cached targets: each lies within the range of the
    class of its module. *)
Definition target_in_range (cls : module_class) (sm : MaxySubModule) : Prop :=
  TARGET_MIN cls <= _target sm <= TARGET_MAX cls.

Definition targets_in_range (c : MaxyController) : Prop :=
  Forall (fun m => Forall (target_in_range (module_class_of m))
                          (sub_modules m))
         (index c).

(** Whether the controller has a port and the port is open. *)
Definition connected (c : MaxyController) : bool :=
  match _serial c with
  | Some s => isOpen s
  | None => false
  end.

(** What the port answers to a write, when there is a port. *)
Definition port_outcome (c : MaxyController) : result unit :=
  match _serial c with
  | Some s => write_outcome s
  | None => Raise IOError
  end.

(** The two sub-module target operations, chosen by [immediate], and
    the opcode each one sends. *)
Definition sub_module_target_op (immediate : bool) (pos sub : nat)
    (target : Z) : M unit :=
  if immediate then MaxySubModule_set_immediate_target pos sub target
  else MaxySubModule__set_target pos sub target.

Definition module_target_op (immediate : bool) (pos : nat) (target : Z)
  : M unit :=
  if immediate then MaxyModule_set_immediate_target pos target
  else MaxyModule__set_target pos target.

Definition target_opcode (immediate : bool) : Z :=
  if immediate then 0x45 else 0x43.

(** Controllers used as concrete inputs: the first and the last module
    of the demo topology on an open port, and larger topologies of
    [n] eight-digit modules. *)
Definition demo_controller : MaxyController :=
  fst (connect open_port
         (define_modules [Some Right1; Some tail_def] MaxyController_init)).

Definition row_controller (n : nat) : MaxyController :=
  fst (connect open_port
         (define_modules (replicate n (Some Right1)) MaxyController_init)).

(** A module registered under the name of an attribute of
    [DictObject], on an open port. *)
Definition values_def : MaxModuleDef :=
  {| def_name := Some "values";
     def_module_type := Class_MaxyModule_8x7seg;
     def_sub_module_names := None |}.

Definition values_controller : MaxyController :=
  fst (connect open_port
         (define_modules [Some values_def] MaxyController_init)).

(** *** The codec, as the specification words it, and a reader of
    escaped regions *)

(** What one turn of the loop of [escape_message] adds to [result]. *)
Definition escape_byte (c : Z) : bytes :=
  if 0xfc <=? c then [0xfc; c] else [c].

(** The escaping rule in the words of the specification: a byte is
    prefixed with 0xFC when it equals 0xFC, and copied otherwise. *)
Definition escape_spec (msg : bytes) : bytes :=
  flat_map (fun c => if c =? 0xfc then [0xfc; c] else [c]) msg.

(** A receiver's scan of an escaped region: 0xFC announces one data
    byte, whatever it is; any other byte stands for itself and must not
    be 0xFD or 0xFE.  [escaped] tells whether the previous byte was an
    escape byte still waiting for its data byte. *)
Fixpoint no_unescaped (escaped : bool) (region : bytes) : bool :=
  match region with
  | [] => negb escaped
  | b :: rest =>
      if escaped then no_unescaped false rest
      else if b =? 0xfc then no_unescaped true rest
      else negb ((b =? 0xfd) || (b =? 0xfe)) && no_unescaped false rest
  end.

(** *** The rest of [DictObject], of the module getters and of the
    driving script *)

(** [DictObject]'s methods on its dictionary.  [__getitem__] raises
    [KeyError(item)] for a missing item: here it returns [None]. *)
Definition DictObject_clear {V : Type} (values : gmap string V)
  : gmap string V := ∅.

Definition DictObject_getitem {V : Type} (values : gmap string V)
    (item : string) : option V :=
  match values !! item with
  | Some v => Some v
  | None => None
  end.

Definition DictObject_setitem {V : Type} (values : gmap string V)
    (key : string) (value : V) : gmap string V :=
  <[key := value]> values.

Definition DictObject_contains {V : Type} (values : gmap string V)
    (item : string) : bool :=
  bool_decide (is_Some (values !! item)).

(** [get]: [try: return self[item]  except KeyError: return default]. *)
Definition DictObject_get {V : Type} (values : gmap string V)
    (item : string) (default : V) : V :=
  match DictObject_getitem values item with
  | Some v => v
  | None => default
  end.

(** [MaxySubModule._get_target], [MaxyModule._get_target] and
    [MaxyModule._get_intensity]. *)
Definition MaxySubModule__get_target (pos sub : nat) : M Z :=
  let! self := get_sub_module pos sub in
  ret (_target self).

Definition MaxyModule__get_target (pos : nat) : M Z :=
  MaxySubModule__get_target pos 0.

Definition MaxyModule__get_intensity (pos : nat) : M Z :=
  let! self := get_module pos in
  ret (_intensity self).

(** [retry_delay] of the driving script, whose own [clamp] is the one
    above. *)
Definition retry_delay (count : Z) : Z := 5 * 2 ^ clamp count 0 2.

(** The invariant on cached intensities. *)
Definition intensities_in_range (c : MaxyController) : Prop :=
  Forall (fun m => 0 <= _intensity m <= 15) (index c).

(** A reference resolves when the object it names is in [index] (for a
    module, together with the first sub-module, which the module's
    [target] property reads and writes); the names resolve when every
    entry of [name] does. *)
Definition ref_resolves (modules : list MaxyModule) (u : unit_ref) : Prop :=
  match u with
  | ModuleRef pos =>
      exists m, modules !! pos = Some m /\ is_Some (sub_modules m !! 0%nat)
  | SubModuleRef pos sub =>
      exists m, modules !! pos = Some m /\ is_Some (sub_modules m !! sub)
  end.

Definition names_resolve (c : MaxyController) : Prop :=
  map_Forall (fun _ u => ref_resolves (index c) u) (name c).

(** The exceptions of a failed lookup. *)
Definition is_lookup_error (e : exn) : bool :=
  match e with
  | IndexError | AttributeError _ => true
  | _ => false
  end.

(** The shape of the modules, which no setter changes: class, index,
    and the ids of the sub-modules. *)
Definition module_shape (m : MaxyModule) : module_class * Z * list Z :=
  (module_class_of m, module_index m, sub_module_id <$> sub_modules m).

(** The body of the loop of [configure_module_types]. *)
Definition send_module_type (module : MaxyModule) : M unit :=
  let! msg := lift (MaxyMessages.set_module_type
                      (module_index module)
                      (MODULE_TYPE_ID (module_class_of module))) in
  send_message msg.

(** A port with what was handed to it after [extra] more writes. *)
Definition port_after (s : Serial) (extra : list bytes) : Serial :=
  {| isOpen := isOpen s;
     write_fault := write_fault s;
     written := written s ++ extra |}.

(** The message [configure_module_types] sends for a module. *)
Definition module_type_message (m : MaxyModule) : bytes :=
  [0x3a; module_index m; MODULE_TYPE_ID (module_class_of m)].

(** * Properties *)

(** ** Frame codec *)

Example escape_fc : escape_message [0xfc] = [0xfc; 0xfc].
Proof. reflexivity. Qed.

Example target_42 :
  MaxyMessages.set_sub_module_target_message 0 0 42
  = Ok [0x43; 0; 0; 0; 0; 0; 0x2a].
Proof. reflexivity. Qed.

Example target_minus_1 :
  MaxyMessages.set_sub_module_target_message 3 1 (-1)
  = Ok [0x43; 3; 1; 255; 255; 255; 255].
Proof. reflexivity. Qed.

Lemma fold_escape_step (msg acc : bytes) :
  fold_left escape_step msg acc = acc ++ flat_map escape_byte msg.
Proof.
  revert acc. induction msg as [|c msg IH]; intros acc; simpl.
  - by rewrite app_nil_r.
  - rewrite IH. unfold escape_step, escape_byte.
    destruct (0xfc <=? c); by rewrite <- ?app_assoc.
Qed.

Lemma escape_message_flat_map (msg : bytes) :
  escape_message msg = flat_map escape_byte msg.
Proof. unfold escape_message. by rewrite fold_escape_step. Qed.

Lemma escape_message_app (p q : bytes) :
  escape_message (p ++ q) = escape_message p ++ escape_message q.
Proof. rewrite !escape_message_flat_map. apply flat_map_app. Qed.

Lemma no_unescaped_flat_map (msg : bytes) :
  no_unescaped false (flat_map escape_byte msg) = true.
Proof.
  induction msg as [|c msg IH]; [done|].
  simpl. unfold escape_byte.
  destruct (Z.leb_spec 0xfc c) as [Hc|Hc]; simpl.
  - exact IH.
  - destruct (Z.eqb_spec c 0xfc); [lia|].
    destruct (Z.eqb_spec c 0xfd); [lia|].
    destruct (Z.eqb_spec c 0xfe); [lia|].
    exact IH.
Qed.

(** C2, as the specification states it, fails: the byte 0xFD does not
    pass through [escape_message] unchanged, it comes out prefixed with
    0xFC, whereas the rule of the specification would copy it. *)
Lemma C2_escape_fd_is_prefixed :
  escape_message [0xfd] = [0xfc; 0xfd]
  /\ escape_spec [0xfd] = [0xfd]
  /\ escape_message [0xfd] <> escape_spec [0xfd].
Proof. repeat split; try reflexivity. discriminate. Qed.

(** C2, amended: for every input byte sequence, [escape_message] emits,
    for each byte [c] in order, 0xFC followed by [c] when [c >= 0xFC]
    (that is 0xFC, 0xFD, 0xFE and 0xFF), and [c] alone otherwise; in
    particular 0xFD and 0xFE each come out prefixed with 0xFC. *)
Theorem C2_escape_prefixes_fc_and_above (msg : bytes) :
  escape_message msg
  = flat_map (fun c => if 0xfc <=? c then [0xfc; c] else [c]) msg
  /\ escape_message [0xfc] = [0xfc; 0xfc]
  /\ escape_message [0xfd] = [0xfc; 0xfd]
  /\ escape_message [0xfe] = [0xfc; 0xfe]
  /\ escape_message [0xff] = [0xfc; 0xff].
Proof.
  split; [|by repeat split].
  apply escape_message_flat_map.
Qed.

(** In the escaped payload every byte from 0xFD up stands directly after
    an escape byte. *)
Lemma delimiter_follows_escape (msg : bytes) (i : nat) (b : Z) :
  flat_map escape_byte msg !! i = Some b -> 0xfd <= b ->
  exists j : nat, i = S j /\ flat_map escape_byte msg !! j = Some 0xfc.
Proof.
  revert i. induction msg as [|c msg IH]; intros i Hi Hb; [done|].
  simpl in Hi |- *. unfold escape_byte in Hi |- *.
  destruct (Z.leb_spec 0xfc c) as [Hc|Hc]; simpl in Hi |- *.
  - destruct i as [|[|k]]; simpl in Hi.
    + injection Hi as <-. lia.
    + by exists 0%nat.
    + destruct (IH k Hi Hb) as (j & -> & Hj). by exists (S (S j)).
  - destruct i as [|k]; simpl in Hi.
    + injection Hi as <-. lia.
    + destruct (IH k Hi Hb) as (j & -> & Hj). by exists (S j).
Qed.

(** C3: the frame of any payload is 0xFD, then the escaped payload, then
    0xFE; it starts with 0xFD and ends with 0xFE.  In the escaped region
    every occurrence of 0xFD or 0xFE stands directly after an escape
    byte 0xFC; and no 0xFC, 0xFD or 0xFE stands unescaped: read from
    the left, the region is a sequence of plain bytes other than these
    three and of pairs made of the escape byte 0xFC and one data
    byte. *)
Theorem C3_frame_delimited_and_escaped (payload : bytes) :
  frame payload = [0xfd] ++ escape_message payload ++ [0xfe]
  /\ head (frame payload) = Some 0xfd
  /\ last (frame payload) = Some 0xfe
  /\ (forall (i : nat) (b : Z),
        escape_message payload !! i = Some b -> b = 0xfd \/ b = 0xfe ->
        exists j : nat,
          i = S j /\ escape_message payload !! j = Some 0xfc)
  /\ no_unescaped false (escape_message payload) = true.
Proof.
  repeat split.
  - unfold frame. rewrite app_assoc. apply last_snoc.
  - rewrite escape_message_flat_map. intros i b Hi Hb.
    apply (delimiter_follows_escape payload i b Hi). lia.
  - rewrite escape_message_flat_map. apply no_unescaped_flat_map.
Qed.

(** ** Message encoder *)

Lemma range_validate_int_in (val lo hi : Z) (param_name : string) :
  lo <= val <= hi -> range_validate_int val lo hi param_name = Ok val.
Proof.
  intros [Hlo Hhi]. unfold range_validate_int.
  apply Z.leb_le in Hlo, Hhi. by rewrite Hlo, Hhi.
Qed.

Lemma range_validate_int_out (val lo hi : Z) (param_name : string) :
  ~ (lo <= val <= hi) ->
  range_validate_int val lo hi param_name
  = Raise (ValueError_range param_name val lo hi).
Proof.
  intros Hout. unfold range_validate_int.
  destruct (Z.leb_spec lo val), (Z.leb_spec val hi); simpl; try done; lia.
Qed.

Lemma to_bytes_1 (v : Z) : 0 <= v <= 255 -> to_bytes v 1 false = Ok [v].
Proof.
  intros Hv. unfold to_bytes.
  change (2 ^ (8 * Z.of_nat 1)) with 256.
  destruct (Z.leb_spec 0 v), (Z.ltb_spec v 256); try lia.
  simpl. by rewrite Z.mod_small by lia.
Qed.

Lemma to_bytes_2 (v : Z) :
  0 <= v <= 65535 -> to_bytes v 2 false = Ok [v / 256; v mod 256].
Proof.
  intros Hv. unfold to_bytes.
  change (2 ^ (8 * Z.of_nat 2)) with 65536.
  destruct (Z.leb_spec 0 v), (Z.ltb_spec v 65536); try lia.
  simpl. rewrite (Z.mod_small (v / 256)); [done|].
  split; [apply Z.div_pos; lia | apply Z.div_lt_upper_bound; lia].
Qed.

Lemma to_bytes_4_signed (v : Z) :
  -2147483648 <= v <= 2147483647 -> to_bytes v 4 true = Ok (be_bytes 4 v).
Proof.
  intros Hv. unfold to_bytes.
  change (- 2 ^ (8 * Z.of_nat 4 - 1)) with (-2147483648).
  change (2 ^ (8 * Z.of_nat 4 - 1)) with 2147483648.
  destruct (Z.leb_spec (-2147483648) v), (Z.ltb_spec v 2147483648);
    try lia; done.
Qed.

Lemma length_be_bytes (n : nat) (v : Z) : length (be_bytes n v) = n.
Proof.
  revert v. induction n as [|n IH]; intros v; simpl; [done|].
  rewrite length_app, IH. simpl. lia.
Qed.

Lemma from_bytes_unsigned_snoc (raw : bytes) (b : Z) :
  from_bytes_unsigned (raw ++ [b]) = from_bytes_unsigned raw * 256 + b.
Proof. unfold from_bytes_unsigned. by rewrite fold_left_app. Qed.

Lemma from_bytes_unsigned_be_bytes (n : nat) (v : Z) :
  from_bytes_unsigned (be_bytes n v) = v mod 256 ^ Z.of_nat n.
Proof.
  revert v. induction n as [|n IH]; intros v.
  - simpl. by rewrite Z.mod_1_r.
  - cbn [be_bytes]. rewrite from_bytes_unsigned_snoc, IH.
    rewrite Nat2Z.inj_succ, Z.pow_succ_r by lia.
    rewrite (Z.rem_mul_r v 256 (256 ^ Z.of_nat n)) by lia. lia.
Qed.

(** Reading a 4-byte signed field back gives the value that was
    written. *)
Lemma from_bytes_signed_be_bytes_4 (v : Z) :
  -2147483648 <= v <= 2147483647 -> from_bytes_signed (be_bytes 4 v) = v.
Proof.
  intros Hv. unfold from_bytes_signed.
  rewrite length_be_bytes, from_bytes_unsigned_be_bytes.
  change (256 ^ Z.of_nat 4) with 4294967296.
  change (2 ^ (8 * Z.of_nat 4 - 1)) with 2147483648.
  change (2 ^ (8 * Z.of_nat 4)) with 4294967296.
  destruct (Z_lt_le_dec v 0) as [Hneg|Hpos].
  - replace (v mod 4294967296) with (v + 4294967296).
    + destruct (Z.ltb_spec (v + 4294967296) 2147483648); lia.
    + symmetry. rewrite <- (Z_mod_plus_full v 1 4294967296).
      apply Z.mod_small. lia.
  - rewrite Z.mod_small by lia.
    destruct (Z.ltb_spec v 2147483648); lia.
Qed.

(** Every class keeps its targets inside what the encoders accept. *)
Lemma class_range_valid (cls : module_class) (v : Z) :
  -9999999 <= clamp v (TARGET_MIN cls) (TARGET_MAX cls) <= 99999999.
Proof. unfold clamp. destruct cls; simpl; lia. Qed.

Lemma clamp_in_range (v lo hi : Z) : lo <= hi -> lo <= clamp v lo hi <= hi.
Proof. unfold clamp. lia. Qed.

Lemma class_range_nonempty (cls : module_class) :
  TARGET_MIN cls <= 0 <= TARGET_MAX cls.
Proof. destruct cls; simpl; lia. Qed.

Lemma set_sub_module_target_message_ok (module_index sub_module target : Z) :
  0 <= module_index <= 63 -> 0 <= sub_module <= 7 ->
  -9999999 <= target <= 99999999 ->
  MaxyMessages.set_sub_module_target_message module_index sub_module target
  = Ok ([0x43; module_index; sub_module] ++ be_bytes 4 target).
Proof.
  intros Hm Hs Ht. unfold MaxyMessages.set_sub_module_target_message.
  rewrite !range_validate_int_in by done. cbn [bind].
  rewrite !to_bytes_1 by lia. cbn [bind].
  by rewrite to_bytes_4_signed by lia.
Qed.

Lemma set_sub_module_immediate_target_message_ok
    (module_index sub_module target : Z) :
  0 <= module_index <= 63 -> 0 <= sub_module <= 255 ->
  -9999999 <= target <= 99999999 ->
  MaxyMessages.set_sub_module_immediate_target_message
    module_index sub_module target
  = Ok ([0x45; module_index; sub_module] ++ be_bytes 4 target).
Proof.
  intros Hm Hs Ht.
  unfold MaxyMessages.set_sub_module_immediate_target_message.
  rewrite !range_validate_int_in by done. cbn [bind].
  rewrite !to_bytes_1 by lia. cbn [bind].
  by rewrite to_bytes_4_signed by lia.
Qed.

Lemma set_module_intensity_ok (module_index intensity : Z) :
  0 <= module_index <= 15 -> 0 <= intensity <= 255 ->
  MaxyMessages.set_module_intensity module_index intensity
  = Ok [0x46; module_index; intensity].
Proof.
  intros Hm Hi. unfold MaxyMessages.set_module_intensity.
  rewrite !range_validate_int_in by lia. cbn [bind].
  by rewrite !to_bytes_1 by lia.
Qed.

Lemma set_module_intensity_raise (module_index intensity : Z) :
  0 <= module_index <= 63 -> 15 < module_index ->
  MaxyMessages.set_module_intensity module_index intensity
  = Raise (ValueError_range "intensity" module_index 0 15).
Proof.
  intros Hm Hi. unfold MaxyMessages.set_module_intensity.
  rewrite range_validate_int_in by lia. cbn [bind].
  by rewrite range_validate_int_out by lia.
Qed.

(** C4 does not hold of the code.  [set_module_intensity] accepts the
    intensity 16, [set_module_speed_divider] accepts the divider 65001,
    and [set_sub_module_immediate_target_message] accepts the
    sub-module id 8: each returns a message instead of raising; and an
    intensity of 256 is refused by the byte conversion, not by a range
    error that names the field. *)
Theorem C4_unvalidated_fields_are_encoded :
  MaxyMessages.set_module_intensity 0 16 = Ok [0x46; 0; 16]
  /\ MaxyMessages.set_module_speed_divider 0 65001 = Ok [0x46; 0; 0xfd; 0xe9]
  /\ MaxyMessages.set_sub_module_immediate_target_message 0 8 0
     = Ok [0x45; 0; 8; 0; 0; 0; 0]
  /\ MaxyMessages.set_module_intensity 0 256 = Raise OverflowError
  /\ MaxyMessages.set_sub_module_target_message 0 8 0
     = Raise (ValueError_range "sub_module" 8 0 7)
  /\ MaxyMessages.set_all_module_intensity 16
     = Raise (ValueError_range "intensity" 16 0 15).
Proof. by repeat split. Qed.

(** C8: for a module index in 0..63 and a divider in 0..65000 the
    speed-divider encoder returns a message, and its first byte is
    0x46, the opcode that starts every message of
    [set_module_intensity], although [MID_SET_MODULE_SPEED_DIVIDER] is
    declared as 0x47. *)
Theorem C8_speed_divider_opcode_is_0x46 (module_index divider : Z) :
  0 <= module_index <= 63 -> 0 <= divider <= 65000 ->
  exists msg : bytes,
    MaxyMessages.set_module_speed_divider module_index divider = Ok msg
    /\ msg = [0x46; module_index; divider / 256; divider mod 256]
    /\ head msg = Some 0x46
    /\ head msg = head MaxyMessages.MID_SET_MODULE_INTENSITY
    /\ MaxyMessages.MID_SET_MODULE_SPEED_DIVIDER = [0x47]
    /\ (forall (m i : Z) (msg' : bytes),
          MaxyMessages.set_module_intensity m i = Ok msg' ->
          head msg' = Some 0x46).
Proof.
  intros Hm Hd. eexists. split; [|repeat split].
  - unfold MaxyMessages.set_module_speed_divider.
    rewrite !range_validate_int_in by lia. cbn [bind].
    rewrite to_bytes_1 by lia. cbn [bind].
    rewrite to_bytes_2 by lia. reflexivity.
  - intros m i msg'. unfold MaxyMessages.set_module_intensity.
    destruct (range_validate_int m 0 63 _); [cbn [bind]|done].
    destruct (range_validate_int m 0 15 _); [cbn [bind]|done].
    destruct (to_bytes m 1 false); [cbn [bind]|done].
    destruct (to_bytes i 1 false); [cbn [bind]|done].
    by intros [= <-].
Qed.

Lemma C8_speed_divider_opcode_witness :
  exists msg : bytes,
    MaxyMessages.set_module_speed_divider 5 1000 = Ok msg
    /\ head msg = Some 0x46.
Proof.
  destruct (C8_speed_divider_opcode_is_0x46 5 1000) as (msg & H1 & _ & H3 & _);
    [lia | lia |].
  exists msg. by split.
Defined.

(** C10: for a module index in 0..63 and an intensity in 0..255,
    [set_module_intensity] raises a range error exactly when the module
    index exceeds 15; the error names "intensity" but carries the module
    index and the bounds 0 and 15.  For a module index in 0..15 it
    returns the three bytes 0x46, module index, intensity, also for
    intensities above 15. *)
Theorem C10_module_intensity_checks_the_index (module_index intensity : Z) :
  0 <= module_index <= 63 -> 0 <= intensity <= 255 ->
  (15 < module_index ->
     MaxyMessages.set_module_intensity module_index intensity
     = Raise (ValueError_range "intensity" module_index 0 15))
  /\ (module_index <= 15 ->
     MaxyMessages.set_module_intensity module_index intensity
     = Ok [0x46; module_index; intensity])
  /\ ((exists e, MaxyMessages.set_module_intensity module_index intensity
                 = Raise e) <-> 15 < module_index).
Proof.
  intros Hm Hi. split; [|split].
  - intros Hgt. by apply set_module_intensity_raise.
  - intros Hle. apply set_module_intensity_ok; lia.
  - split.
    + intros [e He]. destruct (Z_lt_le_dec 15 module_index) as [|Hle]; [done|].
      rewrite set_module_intensity_ok in He by lia. discriminate.
    + intros Hgt. eexists. by apply set_module_intensity_raise.
Qed.

Lemma C10_module_intensity_witness :
  MaxyMessages.set_module_intensity 16 5
  = Raise (ValueError_range "intensity" 16 0 15)
  /\ MaxyMessages.set_module_intensity 15 255 = Ok [0x46; 15; 255].
Proof.
  split.
  - apply (C10_module_intensity_checks_the_index 16 5); lia.
  - apply (C10_module_intensity_checks_the_index 15 255); lia.
Defined.

(** ** Device model *)

(** Every method starts by reading [maxy.index[pos]]. *)
Ltac read_module H := unfold Mbind at 1; unfold get_module; rewrite H.

(** *** What [send_message] does *)

Lemma send_message_connected (msg : bytes) (c : MaxyController) (s : Serial) :
  _serial c = Some s -> isOpen s = true ->
  send_message msg c
  = ({| _serial := Some {| isOpen := isOpen s;
                           write_fault := write_fault s;
                           written := written s ++ [frame msg] |};
        index := index c; name := name c |},
     write_outcome s).
Proof.
  intros Hs Hopen. unfold send_message, Mbind, serial, Serial_write.
  rewrite Hs. destruct s as [o f w]. simpl in *. by subst o.
Qed.

Lemma send_message_not_connected (msg : bytes) (c : MaxyController) :
  connected c = false -> send_message msg c = (c, Raise IOError).
Proof.
  unfold connected, send_message, Mbind, serial.
  destruct (_serial c) as [s|]; [|done]. by intros ->.
Qed.

Lemma send_message_index (msg : bytes) (c : MaxyController) :
  index (fst (send_message msg c)) = index c.
Proof.
  unfold send_message, Mbind, serial.
  destruct (_serial c) as [s|]; [|done]. by destruct (isOpen s).
Qed.

Lemma send_message_sink (msg : bytes) (c : MaxyController) :
  connected c = true ->
  sink (fst (send_message msg c)) = sink c ++ [frame msg]
  /\ snd (send_message msg c) = port_outcome c.
Proof.
  unfold connected, sink, port_outcome. intros Hc.
  destruct (_serial c) as [s|] eqn:Hs; [|done].
  by rewrite (send_message_connected msg c s).
Qed.

(** *** The sub-module target operations, case by case *)

Section SubModuleTarget.

Variables (c : MaxyController) (pos sub : nat).
Variables (m : MaxyModule) (sm : MaxySubModule).
Hypothesis Hm : index c !! pos = Some m.
Hypothesis Hsm : sub_modules m !! sub = Some sm.

Local Abbreviation cls := (module_class_of m).
Local Abbreviation stored t :=
  (fst (update_module pos (with_target sub t) c)).

Lemma get_sub_module_found : get_sub_module pos sub c = (c, Ok sm).
Proof.
  unfold get_sub_module, Mbind, get_module. rewrite Hm. cbv beta iota.
  by rewrite Hsm.
Qed.

Lemma sub_module_target_op_unchanged (immediate : bool) (value : Z) :
  clamp value (TARGET_MIN cls) (TARGET_MAX cls) = _target sm ->
  sub_module_target_op immediate pos sub value c = (c, Ok tt).
Proof.
  intros Heq. unfold sub_module_target_op.
  destruct immediate;
    unfold MaxySubModule_set_immediate_target, MaxySubModule__set_target;
    read_module Hm;
    unfold Mbind at 1; rewrite get_sub_module_found;
    rewrite Heq, Z.eqb_refl; done.
Qed.

Lemma MaxySubModule__set_target_changed (value : Z) :
  let t := clamp value (TARGET_MIN cls) (TARGET_MAX cls) in
  t <> _target sm ->
  MaxySubModule__set_target pos sub value c
  = match MaxyMessages.set_sub_module_target_message
            (module_index m) (sub_module_id sm) t with
    | Ok msg => send_message msg (stored t)
    | Raise e => (stored t, Raise e)
    end.
Proof.
  intros t Hne. unfold MaxySubModule__set_target.
  read_module Hm.
  unfold Mbind at 1; rewrite get_sub_module_found.
  fold t. apply Z.eqb_neq in Hne. rewrite Hne. cbn [negb]. cbv iota.
  unfold Mbind, update_module, lift.
  by destruct (MaxyMessages.set_sub_module_target_message _ _ _).
Qed.

Lemma MaxySubModule_set_immediate_target_changed (value : Z) :
  let t := clamp value (TARGET_MIN cls) (TARGET_MAX cls) in
  t <> _target sm ->
  MaxySubModule_set_immediate_target pos sub value c
  = match MaxyMessages.set_sub_module_immediate_target_message
            (module_index m) (sub_module_id sm) t with
    | Ok msg => send_message msg (stored t)
    | Raise e => (stored t, Raise e)
    end.
Proof.
  intros t Hne. unfold MaxySubModule_set_immediate_target.
  read_module Hm.
  unfold Mbind at 1; rewrite get_sub_module_found.
  fold t. apply Z.eqb_neq in Hne. rewrite Hne. cbn [negb]. cbv iota.
  unfold Mbind, update_module, lift.
  by destruct (MaxyMessages.set_sub_module_immediate_target_message _ _ _).
Qed.

Lemma cached_target_stored (t : Z) : cached_target (stored t) pos sub = Some t.
Proof.
  unfold cached_target, stored. simpl.
  rewrite list_lookup_alter_eq, Hm. simpl.
  by rewrite list_lookup_alter_eq, Hsm.
Qed.

End SubModuleTarget.

(** The index after a sub-module target operation: untouched, or the
    one cached target replaced by the clamped value. *)
Lemma sub_module_target_op_index (immediate : bool) (pos sub : nat)
    (value : Z) (c : MaxyController) :
  index (fst (sub_module_target_op immediate pos sub value c)) = index c
  \/ exists m,
       index c !! pos = Some m
       /\ index (fst (sub_module_target_op immediate pos sub value c))
          = alter (with_target sub
                     (clamp value (TARGET_MIN (module_class_of m))
                                  (TARGET_MAX (module_class_of m))))
                  pos (index c).
Proof.
  destruct (index c !! pos) as [m|] eqn:Hm.
  - destruct (sub_modules m !! sub) as [sm|] eqn:Hsm.
    + destruct (decide (clamp value (TARGET_MIN (module_class_of m))
                                    (TARGET_MAX (module_class_of m))
                        = _target sm)) as [Heq|Hne].
      * left. by rewrite (sub_module_target_op_unchanged c pos sub m sm).
      * right. exists m. split; [done|]. unfold sub_module_target_op.
        destruct immediate.
        -- rewrite (MaxySubModule_set_immediate_target_changed c pos sub m sm)
             by done.
           destruct (MaxyMessages.set_sub_module_immediate_target_message
                       _ _ _); [|done].
           by rewrite send_message_index.
        -- rewrite (MaxySubModule__set_target_changed c pos sub m sm) by done.
           destruct (MaxyMessages.set_sub_module_target_message _ _ _);
             [|done].
           by rewrite send_message_index.
    + left. unfold sub_module_target_op.
      destruct immediate;
        unfold MaxySubModule_set_immediate_target, MaxySubModule__set_target;
        read_module Hm;
        unfold Mbind at 1; unfold get_sub_module, Mbind, get_module;
        rewrite Hm; cbv beta iota; by rewrite Hsm.
  - left. unfold sub_module_target_op.
    destruct immediate;
      unfold MaxySubModule_set_immediate_target, MaxySubModule__set_target;
      by read_module Hm.
Qed.

Lemma with_target_in_range (sub : nat) (value : Z) (m : MaxyModule) :
  let cls := module_class_of m in
  Forall (target_in_range cls) (sub_modules m) ->
  Forall (target_in_range cls)
    (sub_modules (with_target sub (clamp value (TARGET_MIN cls)
                                               (TARGET_MAX cls)) m)).
Proof.
  intros cls Hall. simpl. apply Forall_alter; [done|].
  intros sm _ _. unfold target_in_range. simpl.
  apply clamp_in_range. pose proof (class_range_nonempty cls). lia.
Qed.

Lemma sub_module_target_op_in_range (immediate : bool) (pos sub : nat)
    (value : Z) (c : MaxyController) :
  targets_in_range c ->
  targets_in_range (fst (sub_module_target_op immediate pos sub value c)).
Proof.
  unfold targets_in_range. intros Hinv.
  destruct (sub_module_target_op_index immediate pos sub value c)
    as [->|(m & Hm & ->)]; [done|].
  apply Forall_alter; [done|].
  intros m' Hm' Hall. assert (m' = m) as -> by congruence.
  exact (with_target_in_range sub value m Hall).
Qed.

Lemma module_target_op_in_range (immediate : bool) (pos : nat) (value : Z)
    (c : MaxyController) :
  targets_in_range c ->
  targets_in_range (fst (module_target_op immediate pos value c)).
Proof.
  intros Hinv. unfold module_target_op.
  destruct immediate;
    unfold MaxyModule_set_immediate_target, MaxyModule__set_target;
    unfold Mbind at 1; unfold get_module;
    (destruct (index c !! pos) as [m|]; [|done]);
    (destruct (ALLOW_MAIN_MODULE_TARGET_CHANGES (module_class_of m));
     [|done]); cbn [negb]; cbv beta iota.
  - apply (sub_module_target_op_in_range true pos 0 value c Hinv).
  - unfold Mbind.
    pose proof (sub_module_target_op_in_range false pos 0 value c Hinv) as H.
    unfold sub_module_target_op in H.
    by destruct (MaxySubModule__set_target pos 0 value c) as [c' [[]|e]].
Qed.

(** *** Registration *)

Lemma fold_define_step_index (entries : list (nat * option MaxModuleDef))
    (c : MaxyController) :
  index (fold_left define_step entries c)
  = index c ++ omap defined_module entries.
Proof.
  revert c. induction entries as [|[i d] entries IH]; intros c; simpl.
  - by rewrite app_nil_r.
  - rewrite IH. unfold define_step, defined_module. simpl.
    destruct d as [module_def|]; simpl; [|done].
    by rewrite <- app_assoc.
Qed.

Lemma define_modules_index (module_definitions : list (option MaxModuleDef))
    (c : MaxyController) :
  index (define_modules module_definitions c)
  = omap defined_module
      (zip (seq 0 (length module_definitions)) module_definitions).
Proof. unfold define_modules. by rewrite fold_define_step_index. Qed.

Lemma define_modules_fresh (module_definitions : list (option MaxModuleDef))
    (c : MaxyController) (m : MaxyModule) :
  m ∈ index (define_modules module_definitions c) ->
  exists (cls : module_class) (i : nat),
    m = MaxyModule_init cls (Z.of_nat i)
    /\ (i < length module_definitions)%nat.
Proof.
  rewrite define_modules_index. intros Hin.
  apply list_elem_of_omap in Hin as ([i d] & Hin & Hdef).
  unfold defined_module in Hdef. simpl in Hdef.
  destruct d as [module_def|]; [|done]. injection Hdef as <-.
  exists (def_module_type module_def), i. split; [done|].
  apply elem_of_zip_l in Hin. apply elem_of_seq in Hin. lia.
Qed.

Lemma MaxyModule_init_targets (cls : module_class) (i : Z) :
  Forall (fun sm => _target sm = 0
                    /\ 0 <= sub_module_id sm < Z.of_nat (SUB_MODULE_COUNT cls))
         (sub_modules (MaxyModule_init cls i)).
Proof.
  simpl. apply Forall_forall. intros sm Hin.
  apply list_elem_of_In, in_map_iff in Hin as (k & <- & Hk).
  apply in_seq in Hk. simpl. lia.
Qed.

Lemma define_modules_in_range
    (module_definitions : list (option MaxModuleDef)) (c : MaxyController) :
  targets_in_range (define_modules module_definitions c).
Proof.
  unfold targets_in_range. apply Forall_forall. intros m Hin.
  apply define_modules_fresh in Hin as (cls & i & -> & _).
  eapply Forall_impl; [apply MaxyModule_init_targets|].
  intros sm [Ht _]. unfold target_in_range. rewrite Ht.
  apply (class_range_nonempty cls).
Qed.

(** With at most 64 definitions, every registered module has an index
    in 0..63 and sub-module ids in 0..7, the ranges the encoders
    accept. *)
Lemma define_modules_addresses
    (module_definitions : list (option MaxModuleDef)) (c : MaxyController) :
  (length module_definitions <= 64)%nat ->
  Forall (fun m => 0 <= module_index m <= 63
                   /\ _intensity m = 0
                   /\ Forall (fun sm => 0 <= sub_module_id sm <= 7)
                             (sub_modules m))
         (index (define_modules module_definitions c)).
Proof.
  intros Hlen. apply Forall_forall. intros m Hin.
  apply define_modules_fresh in Hin as (cls & i & -> & Hi).
  split; [simpl; lia|]. split; [done|].
  eapply Forall_impl; [apply MaxyModule_init_targets|].
  intros sm [_ Hid]. destruct cls; simpl in Hid; lia.
Qed.

(** *** Outcomes of the sub-module target operations *)

Lemma port_outcome_not_range (c : MaxyController) (e : exn) :
  port_outcome c = Raise e -> is_range_error e = false.
Proof.
  unfold port_outcome, write_outcome.
  destruct (_serial c) as [s|]; [|by intros [= <-]].
  destruct (write_fault s) as [[]|]; [| |done]; by intros [= <-].
Qed.

Lemma send_message_outcome_not_range (msg : bytes) (c : MaxyController)
    (e : exn) :
  snd (send_message msg c) = Raise e -> is_range_error e = false.
Proof.
  destruct (connected c) eqn:Hc.
  - destruct (send_message_sink msg c Hc) as [_ ->].
    apply port_outcome_not_range.
  - rewrite send_message_not_connected by done. by intros [= <-].
Qed.

Lemma cached_target_index (c c' : MaxyController) (pos sub : nat) :
  index c' = index c -> cached_target c' pos sub = cached_target c pos sub.
Proof. unfold cached_target. by intros ->. Qed.

Lemma sub_module_target_op_cached (immediate : bool) (c : MaxyController)
    (pos sub : nat) (m : MaxyModule) (sm : MaxySubModule) (value : Z) :
  index c !! pos = Some m -> sub_modules m !! sub = Some sm ->
  cached_target (fst (sub_module_target_op immediate pos sub value c)) pos sub
  = Some (clamp value (TARGET_MIN (module_class_of m))
                      (TARGET_MAX (module_class_of m))).
Proof.
  intros Hm Hsm.
  set (t := clamp value _ _).
  destruct (decide (t = _target sm)) as [Heq|Hne].
  - rewrite (sub_module_target_op_unchanged c pos sub m sm) by done.
    unfold cached_target. simpl. rewrite Hm. simpl. rewrite Hsm. simpl.
    by rewrite Heq.
  - unfold sub_module_target_op. destruct immediate.
    + rewrite (MaxySubModule_set_immediate_target_changed c pos sub m sm)
        by done.
      destruct (MaxyMessages.set_sub_module_immediate_target_message _ _ _).
      * rewrite (cached_target_index _ _ _ _ (send_message_index _ _)).
        by apply (cached_target_stored c pos sub m sm).
      * by apply (cached_target_stored c pos sub m sm).
    + rewrite (MaxySubModule__set_target_changed c pos sub m sm) by done.
      destruct (MaxyMessages.set_sub_module_target_message _ _ _).
      * rewrite (cached_target_index _ _ _ _ (send_message_index _ _)).
        by apply (cached_target_stored c pos sub m sm).
      * by apply (cached_target_stored c pos sub m sm).
Qed.

Lemma sub_module_target_op_sent (immediate : bool) (c : MaxyController)
    (pos sub : nat) (m : MaxyModule) (sm : MaxySubModule) (value : Z) :
  index c !! pos = Some m -> sub_modules m !! sub = Some sm ->
  connected c = true ->
  0 <= module_index m <= 63 -> 0 <= sub_module_id sm <= 7 ->
  let t := clamp value (TARGET_MIN (module_class_of m))
                       (TARGET_MAX (module_class_of m)) in
  t <> _target sm ->
  let r := sub_module_target_op immediate pos sub value c in
  sink (fst r)
  = sink c ++ [frame ([target_opcode immediate; module_index m;
                       sub_module_id sm] ++ be_bytes 4 t)]
  /\ snd r = port_outcome c.
Proof.
  intros Hm Hsm Hc Hmi Hsi t Hne r. subst r.
  pose proof (class_range_valid (module_class_of m) value) as Hrange.
  fold t in Hrange.
  unfold sub_module_target_op. destruct immediate.
  - rewrite (MaxySubModule_set_immediate_target_changed c pos sub m sm)
      by done.
    fold t. rewrite set_sub_module_immediate_target_message_ok by lia.
    apply (send_message_sink _ {| _serial := _serial c |}). exact Hc.
  - rewrite (MaxySubModule__set_target_changed c pos sub m sm) by done.
    fold t. rewrite set_sub_module_target_message_ok by lia.
    apply (send_message_sink _ {| _serial := _serial c |}). exact Hc.
Qed.

(** A range error out of a sub-module target operation comes from the
    encoder, after the cache was written and before anything is sent. *)
Lemma sub_module_target_op_range_error (immediate : bool)
    (c : MaxyController) (pos sub : nat) (m : MaxyModule)
    (sm : MaxySubModule) (value : Z) (e : exn) :
  index c !! pos = Some m -> sub_modules m !! sub = Some sm ->
  snd (sub_module_target_op immediate pos sub value c) = Raise e ->
  is_range_error e = true ->
  let t := clamp value (TARGET_MIN (module_class_of m))
                       (TARGET_MAX (module_class_of m)) in
  _serial (fst (sub_module_target_op immediate pos sub value c)) = _serial c
  /\ t <> _target sm.
Proof.
  intros Hm Hsm Hr He t.
  destruct (decide (t = _target sm)) as [Heq|Hne].
  - rewrite (sub_module_target_op_unchanged c pos sub m sm) in Hr by done.
    discriminate.
  - split; [|done]. revert Hr. unfold sub_module_target_op.
    destruct immediate.
    + rewrite (MaxySubModule_set_immediate_target_changed c pos sub m sm)
        by done.
      destruct (MaxyMessages.set_sub_module_immediate_target_message _ _ _);
        [|done].
      intros Hr. apply send_message_outcome_not_range in Hr. congruence.
    + rewrite (MaxySubModule__set_target_changed c pos sub m sm) by done.
      destruct (MaxyMessages.set_sub_module_target_message _ _ _); [|done].
      intros Hr. apply send_message_outcome_not_range in Hr. congruence.
Qed.

(** *** The intensity setter, case by case *)

Lemma MaxyModule__set_intensity_unchanged (c : MaxyController) (pos : nat)
    (m : MaxyModule) (intensity : Z) :
  index c !! pos = Some m ->
  clamp intensity 0 15 = _intensity m ->
  MaxyModule__set_intensity pos intensity c = (c, Ok tt).
Proof.
  intros Hm Heq. unfold MaxyModule__set_intensity.
  read_module Hm.
  by rewrite Heq, Z.eqb_refl.
Qed.

Lemma MaxyModule__set_intensity_changed (c : MaxyController) (pos : nat)
    (m : MaxyModule) (intensity : Z) :
  index c !! pos = Some m ->
  clamp intensity 0 15 <> _intensity m ->
  MaxyModule__set_intensity pos intensity c
  = let c1 := {| _serial := _serial c;
                 index := alter (with_intensity (clamp intensity 0 15)) pos
                                (index c);
                 name := name c |} in
    match MaxyMessages.set_module_intensity (module_index m)
                                            (clamp intensity 0 15) with
    | Ok msg => send_message msg c1
    | Raise e => (c1, Raise e)
    end.
Proof.
  intros Hm Hne. unfold MaxyModule__set_intensity.
  read_module Hm.
  apply Z.eqb_neq in Hne. rewrite Hne. cbn [negb]. cbv iota.
  unfold Mbind, update_module, lift. cbv zeta.
  by destruct (MaxyMessages.set_module_intensity _ _).
Qed.

Lemma cached_intensity_index (c c' : MaxyController) (pos : nat) :
  index c' = index c -> cached_intensity c' pos = cached_intensity c pos.
Proof. unfold cached_intensity. by intros ->. Qed.

(** ** The claims on the device model *)

(** C1: with one module of class [MaxyModule_8x7seg] registered at index
    0 under the name "Right1" (its one cached target 0) and an open
    port attached, [maxy.name.Right1.target = 42] hands exactly one byte
    sequence to the port: 0xFD, 0x43, module 0x00, sub-module 0x00, the
    four big-endian bytes 00 00 00 2A of the target, 0xFE. *)
Theorem C1_right1_target_42 (port : Serial) :
  isOpen port = true ->
  let registered := define_modules [Some Right1] MaxyController_init in
  let c := fst (connect port registered) in
  let r := set_target "Right1" 42 false c in
  index registered = [MaxyModule_init Class_MaxyModule_8x7seg 0]
  /\ name registered !! "Right1" = Some (ModuleRef 0)
  /\ cached_target c 0 0 = Some 0
  /\ sink (fst r)
     = sink c ++ [[0xfd; 0x43; 0x00; 0x00; 0x00; 0x00; 0x00; 0x2a; 0xfe]]
  /\ [0xfd; 0x43; 0x00; 0x00; 0x00; 0x00; 0x00; 0x2a; 0xfe]
     = frame ([0x43] ++ [0] ++ [0] ++ be_bytes 4 42)
  /\ cached_target (fst r) 0 0 = Some 42
  /\ snd r = write_outcome port.
Proof.
  intros Hopen. destruct port as [o f w]. simpl in Hopen. subst o.
  destruct f as [[]|]; vm_compute; by repeat split.
Qed.

Lemma C1_right1_target_42_witness :
  sink (fst (set_target "Right1" 42 false
               (fst (connect open_port
                       (define_modules [Some Right1] MaxyController_init)))))
  = [[0xfd; 0x3a; 0x00; 0x03; 0xfe];
     [0xfd; 0x43; 0x00; 0x00; 0x00; 0x00; 0x00; 0x2a; 0xfe]].
Proof.
  destruct (C1_right1_target_42 open_port eq_refl) as (_ & _ & _ & H & _).
  exact H.
Defined.

(** The eight bytes the specification lists for this frame are one 0x00
    short of what is written. *)
Remark right1_frame_has_nine_bytes :
  length (frame ([0x43] ++ [0] ++ [0] ++ be_bytes 4 42)) = 9%nat
  /\ frame ([0x43] ++ [0] ++ [0] ++ be_bytes 4 42)
     <> [0xfd; 0x43; 0x00; 0x00; 0x00; 0x00; 0x2a; 0xfe].
Proof. split; [reflexivity | discriminate]. Qed.

(** C5: on a connected controller, for a sub-module addressed by a
    module index in 0..63 and a sub-module id in 0..7: assigning a
    target whose clamped value equals the cached target leaves the
    whole controller as it was (no message, same cache); assigning an
    in-range value that differs from the cached target stores it and
    hands exactly one frame to the port, that of the message 0x43,
    module index, sub-module id, and the four bytes of the value. *)
Theorem C5_target_sent_only_on_change (c : MaxyController) (pos sub : nat)
    (m : MaxyModule) (sm : MaxySubModule) (value : Z) :
  index c !! pos = Some m -> sub_modules m !! sub = Some sm ->
  connected c = true ->
  0 <= module_index m <= 63 -> 0 <= sub_module_id sm <= 7 ->
  let lo := TARGET_MIN (module_class_of m) in
  let hi := TARGET_MAX (module_class_of m) in
  let r := MaxySubModule__set_target pos sub value c in
  (clamp value lo hi = _target sm -> r = (c, Ok tt))
  /\ (lo <= value <= hi -> value <> _target sm ->
      clamp value lo hi = value
      /\ cached_target (fst r) pos sub = Some value
      /\ (exists raw : bytes,
            to_bytes value 4 true = Ok raw
            /\ from_bytes_signed raw = value
            /\ sink (fst r)
               = sink c ++ [frame ([0x43; module_index m; sub_module_id sm]
                                   ++ raw)])
      /\ snd r = port_outcome c).
Proof.
  intros Hm Hsm Hc Hmi Hsi lo hi r. split.
  - intros Heq.
    exact (sub_module_target_op_unchanged c pos sub m sm Hm Hsm false value Heq).
  - intros Hin Hne.
    assert (clamp value lo hi = value) as Hclamp by (unfold clamp; lia).
    pose proof (class_range_valid (module_class_of m) value) as Hvalid.
    fold lo hi in Hvalid. rewrite Hclamp in Hvalid.
    pose proof (sub_module_target_op_cached false c pos sub m sm value Hm Hsm)
      as Hcache.
    pose proof (sub_module_target_op_sent false c pos sub m sm value
                  Hm Hsm Hc Hmi Hsi) as Hsent.
    cbv zeta in Hsent. fold lo hi in Hcache, Hsent.
    rewrite Hclamp in Hcache, Hsent. destruct (Hsent Hne) as [Hsink Hout].
    split; [done|]. split; [exact Hcache|]. split; [|exact Hout].
    exists (be_bytes 4 value). split; [apply to_bytes_4_signed; lia|].
    split; [apply from_bytes_signed_be_bytes_4; lia | exact Hsink].
Qed.

Lemma C5_target_sent_only_on_change_witness :
  MaxySubModule__set_target 0 0 0 demo_controller = (demo_controller, Ok tt)
  /\ cached_target (fst (MaxySubModule__set_target 0 0 42 demo_controller))
       0 0 = Some 42.
Proof.
  pose (m := MaxyModule_init Class_MaxyModule_8x7seg 0).
  pose (sm := MaxySubModule_init 0).
  assert (0 <= module_index m <= 63) as Hmi by (simpl; lia).
  assert (0 <= sub_module_id sm <= 7) as Hsi by (simpl; lia).
  split.
  - apply (C5_target_sent_only_on_change demo_controller 0 0 m sm 0
             eq_refl eq_refl eq_refl Hmi Hsi).
    reflexivity.
  - apply (C5_target_sent_only_on_change demo_controller 0 0 m sm 42
             eq_refl eq_refl eq_refl Hmi Hsi).
    + simpl. lia.
    + simpl. lia.
Defined.

(** C6: cached targets stay within the range of their module's class.
    Registration establishes this (every cached target starts at 0);
    every target and immediate-target operation, on a sub-module or on
    the module, keeps it, whatever value is requested and whether or
    not the operation raises.  The operation leaves the clamped value
    in the cache: the lower bound for a request below the range, the
    upper bound for one above it, the request itself otherwise.  When a
    message goes out it carries the clamped value, and clamping raises
    nothing: the outcome is the port's. *)
Theorem C6_cached_targets_stay_in_range (c : MaxyController)
    (immediate : bool) (pos sub : nat) (value : Z) :
  targets_in_range c ->
  let r := sub_module_target_op immediate pos sub value c in
  targets_in_range (fst r)
  /\ targets_in_range (fst (module_target_op immediate pos value c))
  /\ (forall (module_definitions : list (option MaxModuleDef))
             (c0 : MaxyController),
        targets_in_range (define_modules module_definitions c0))
  /\ (forall (m : MaxyModule) (sm : MaxySubModule),
        index c !! pos = Some m -> sub_modules m !! sub = Some sm ->
        let lo := TARGET_MIN (module_class_of m) in
        let hi := TARGET_MAX (module_class_of m) in
        let t := clamp value lo hi in
        lo <= t <= hi
        /\ (value < lo -> t = lo)
        /\ (hi < value -> t = hi)
        /\ (lo <= value <= hi -> t = value)
        /\ cached_target (fst r) pos sub = Some t
        /\ (connected c = true ->
            0 <= module_index m <= 63 -> 0 <= sub_module_id sm <= 7 ->
            t <> _target sm ->
            sink (fst r)
            = sink c ++ [frame ([target_opcode immediate; module_index m;
                                 sub_module_id sm] ++ be_bytes 4 t)]
            /\ from_bytes_signed (be_bytes 4 t) = t
            /\ snd r = port_outcome c)).
Proof.
  intros Hinv r. split; [|split; [|split]].
  - by apply sub_module_target_op_in_range.
  - by apply module_target_op_in_range.
  - apply define_modules_in_range.
  - intros m sm Hm Hsm lo hi t.
    pose proof (class_range_nonempty (module_class_of m)) as Hne.
    fold lo hi in Hne.
    split; [apply clamp_in_range; lia|].
    split; [unfold t, clamp; lia|].
    split; [unfold t, clamp; lia|].
    split; [unfold t, clamp; lia|].
    split; [exact (sub_module_target_op_cached immediate c pos sub m sm value
                     Hm Hsm)|].
    intros Hc Hmi Hsi Hchanged.
    destruct (sub_module_target_op_sent immediate c pos sub m sm value
                Hm Hsm Hc Hmi Hsi Hchanged) as [Hsink Hout].
    split; [exact Hsink|]. split; [|exact Hout].
    apply from_bytes_signed_be_bytes_4.
    pose proof (class_range_valid (module_class_of m) value). fold lo hi t in H.
    lia.
Qed.

Lemma demo_controller_in_range : targets_in_range demo_controller.
Proof.
  unfold targets_in_range, target_in_range. vm_compute index.
  repeat constructor; simpl; lia.
Defined.

Lemma C6_cached_targets_stay_in_range_witness :
  cached_target (fst (MaxySubModule__set_target 1 1 20000 demo_controller))
    1 1 = Some 9999
  /\ targets_in_range (fst (MaxySubModule__set_target 1 1 20000
                              demo_controller)).
Proof.
  pose proof (C6_cached_targets_stay_in_range demo_controller false 1 1 20000
                demo_controller_in_range) as (Hinv & _ & _ & Hop).
  split; [|exact Hinv].
  exact (proj1 (proj2 (proj2 (proj2 (proj2
    (Hop (MaxyModule_init Class_MaxyModule_2x4x7seg 1)
         (MaxySubModule_init 1) eq_refl eq_refl)))))).
Defined.

(** C7, as the specification states it, fails.  On a row of 17 modules
    the module at index 16 has cached intensity 0; assigning it the
    intensity 5 raises the range error of the encoder, and the cached
    intensity is 5 afterwards.  Likewise on a row of 65 modules,
    assigning the target 5 to the module at index 64 raises the range
    error on the module index and leaves 5 in the cache. *)
Lemma C7_failed_set_intensity_changed_the_cache :
  let c := row_controller 17 in
  let r := MaxyModule__set_intensity 16 5 c in
  let c' := row_controller 65 in
  let r' := MaxySubModule__set_target 64 0 5 c' in
  (module_index <$> index c !! 16%nat) = Some 16
  /\ snd r = Raise (ValueError_range "intensity" 16 0 15)
  /\ cached_intensity c 16 = Some 0
  /\ cached_intensity (fst r) 16 = Some 5
  /\ cached_intensity (fst r) 16 <> cached_intensity c 16
  /\ snd r' = Raise (ValueError_range "module_index" 64 0 63)
  /\ cached_target c' 64 0 = Some 0
  /\ cached_target (fst r') 64 0 = Some 5.
Proof. vm_compute. by repeat split. Qed.

(** C7, amended: when assigning an intensity, or a target or immediate
    target of a sub-module, fails with a range error, nothing has been
    handed to the port (the port is as it was), but the cache has
    already been written: it holds the clamped requested value, which
    differs from the value cached before.  The cache is written before
    the message is encoded and is not rolled back. *)
Theorem C7_range_error_leaves_cache_written (c : MaxyController)
    (pos sub : nat) (m : MaxyModule) (value : Z) (e : exn) :
  index c !! pos = Some m ->
  is_range_error e = true ->
  (let r := MaxyModule__set_intensity pos value c in
   snd r = Raise e ->
   _serial (fst r) = _serial c
   /\ sink (fst r) = sink c
   /\ cached_intensity (fst r) pos = Some (clamp value 0 15)
   /\ clamp value 0 15 <> _intensity m)
  /\ (forall (immediate : bool) (sm : MaxySubModule),
        sub_modules m !! sub = Some sm ->
        let r := sub_module_target_op immediate pos sub value c in
        let t := clamp value (TARGET_MIN (module_class_of m))
                             (TARGET_MAX (module_class_of m)) in
        snd r = Raise e ->
        _serial (fst r) = _serial c
        /\ sink (fst r) = sink c
        /\ cached_target (fst r) pos sub = Some t
        /\ t <> _target sm).
Proof.
  intros Hm He. split.
  - intros r Hr. subst r.
    destruct (decide (clamp value 0 15 = _intensity m)) as [Heq|Hne].
    { rewrite (MaxyModule__set_intensity_unchanged c pos m) in Hr by done.
      discriminate. }
    revert Hr. rewrite (MaxyModule__set_intensity_changed c pos m) by done.
    cbv zeta.
    destruct (MaxyMessages.set_module_intensity _ _) as [msg|e'].
    + intros Hr. apply send_message_outcome_not_range in Hr. congruence.
    + intros _. repeat split; try done.
      unfold cached_intensity. simpl.
      by rewrite list_lookup_alter_eq, Hm.
  - intros immediate sm Hsm r t Hr. subst r t.
    destruct (sub_module_target_op_range_error immediate c pos sub m sm value e
                Hm Hsm Hr He) as [Hserial Hne].
    split; [exact Hserial|]. split; [unfold sink; by rewrite Hserial|].
    split; [|exact Hne].
    exact (sub_module_target_op_cached immediate c pos sub m sm value Hm Hsm).
Qed.

Lemma C7_range_error_leaves_cache_written_witness :
  sink (fst (MaxyModule__set_intensity 16 5 (row_controller 17)))
  = sink (row_controller 17)
  /\ cached_intensity (fst (MaxyModule__set_intensity 16 5
                              (row_controller 17))) 16 = Some 5.
Proof.
  pose proof (C7_range_error_leaves_cache_written (row_controller 17) 16 0
                (MaxyModule_init Class_MaxyModule_8x7seg 16) 5
                (ValueError_range "intensity" 16 0 15) eq_refl eq_refl)
    as [Hintensity _].
  destruct (Hintensity eq_refl) as (_ & Hsink & Hcache & _).
  split; [exact Hsink | exact Hcache].
Defined.

(** C9: on a module whose class forbids direct changes of the main
    target, assigning the module's target or immediate target raises
    [TypeError] and returns the controller as it was: nothing is handed
    to the port and every cached target is what it was. *)
Theorem C9_main_target_refused (c : MaxyController) (pos : nat)
    (m : MaxyModule) (value : Z) (immediate : bool) :
  index c !! pos = Some m ->
  ALLOW_MAIN_MODULE_TARGET_CHANGES (module_class_of m) = false ->
  let r := module_target_op immediate pos value c in
  r = (c, Raise TypeError)
  /\ sink (fst r) = sink c
  /\ (forall p s : nat, cached_target (fst r) p s = cached_target c p s).
Proof.
  intros Hm Hallow r.
  assert (r = (c, Raise TypeError)) as Hr.
  { subst r. unfold module_target_op.
    destruct immediate;
      unfold MaxyModule_set_immediate_target, MaxyModule__set_target;
      read_module Hm; by rewrite Hallow. }
  split; [exact Hr|]. rewrite Hr. by split.
Qed.

Lemma C9_main_target_refused_witness :
  MaxyModule__set_target 1 5 demo_controller = (demo_controller, Raise TypeError)
  /\ MaxyModule_set_immediate_target 1 5 demo_controller
     = (demo_controller, Raise TypeError).
Proof.
  split.
  - apply (C9_main_target_refused demo_controller 1
             (MaxyModule_init Class_MaxyModule_2x4x7seg 1) 5 false
             eq_refl eq_refl).
  - apply (C9_main_target_refused demo_controller 1
             (MaxyModule_init Class_MaxyModule_2x4x7seg 1) 5 true
             eq_refl eq_refl).
Defined.

(** * Further properties *)

(** ** Frame codec *)

Lemma flat_map_escape_byte_inj (p q : bytes) :
  flat_map escape_byte p = flat_map escape_byte q -> p = q.
Proof.
  revert q. induction p as [|c p IH]; intros [|d q]; simpl;
    unfold escape_byte.
  - done.
  - by destruct (0xfc <=? d).
  - by destruct (0xfc <=? c).
  - destruct (Z.leb_spec 0xfc c) as [Hc|Hc], (Z.leb_spec 0xfc d) as [Hd|Hd];
      simpl; intros Heq; simplify_eq; try lia; f_equal; by apply IH.
Qed.

(** X1: escaping loses nothing.  Two payloads with the same escaped form
    are the same payload, and so are two payloads with the same
    frame. *)
Theorem X1_escape_message_injective (p q : bytes) :
  (escape_message p = escape_message q -> p = q)
  /\ (frame p = frame q -> p = q).
Proof.
  split.
  - rewrite !escape_message_flat_map. apply flat_map_escape_byte_inj.
  - unfold frame. intros Heq. simpl in Heq. injection Heq as Heq.
    apply app_inj_tail in Heq as [Heq _].
    revert Heq. rewrite !escape_message_flat_map.
    apply flat_map_escape_byte_inj.
Qed.

Lemma X1_escape_message_injective_witness :
  escape_message [0xfc; 0x01] = escape_message [0xfc; 0x01]
  /\ [0xfc; 0x01] = [0xfc; 0x01].
Proof.
  split; [reflexivity|].
  apply (X1_escape_message_injective [0xfc; 0x01] [0xfc; 0x01]).
  reflexivity.
Defined.

Lemma escape_message_length_count (msg : bytes) :
  length (escape_message msg)
  = (length msg + length (filter (fun c : Z => (0xfc <= c)%Z) msg))%nat.
Proof.
  rewrite escape_message_flat_map.
  induction msg as [|c msg IH]; [done|].
  simpl. rewrite length_app, IH. unfold escape_byte.
  rewrite filter_cons.
  destruct (Z.leb_spec 0xfc c) as [Hc|Hc]; case_decide; try lia;
    simpl; lia.
Qed.

(** X2: the escaped payload is longer than the payload by the number of
    its bytes from 0xFC up, so at most twice as long; the frame adds the
    two delimiters. *)
Theorem X2_escape_message_length (msg : bytes) :
  length (escape_message msg)
  = (length msg + length (filter (fun c : Z => (0xfc <= c)%Z) msg))%nat
  /\ (length msg <= length (escape_message msg) <= 2 * length msg)%nat
  /\ length (frame msg) = (2 + length (escape_message msg))%nat.
Proof.
  pose proof (escape_message_length_count msg) as Hlen.
  split; [exact Hlen|]. split.
  - pose proof (length_filter (fun c : Z => (0xfc <= c)%Z) msg). lia.
  - unfold frame. rewrite !length_app. simpl. lia.
Qed.

(** X3: a payload comes out of [escape_message] unchanged exactly when
    all its bytes are below 0xFC. *)
Theorem X3_escape_message_identity (msg : bytes) :
  escape_message msg = msg <-> Forall (fun c => c < 0xfc) msg.
Proof.
  rewrite escape_message_flat_map. split.
  - intros Heq.
    assert (length (filter (fun c : Z => (0xfc <= c)%Z) msg) = 0%nat) as Hnone.
    { pose proof (escape_message_length_count msg) as Hlen.
      rewrite escape_message_flat_map, Heq in Hlen. lia. }
    apply Forall_forall. intros c Hc.
    destruct (decide (0xfc <= c)) as [Hge|]; [|lia].
    assert (c ∈ filter (fun c : Z => (0xfc <= c)%Z) msg) as Hin
      by (by apply list_elem_of_filter).
    destruct (filter (fun c : Z => (0xfc <= c)%Z) msg); [|done].
    by apply elem_of_nil in Hin.
  - induction 1 as [|c msg Hc _ IH]; [done|].
    simpl. rewrite IH. unfold escape_byte.
    by destruct (Z.leb_spec 0xfc c); [lia|].
Qed.

(** X4: escaping works byte by byte: the escaped form of a concatenation
    is the concatenation of the escaped forms, the empty payload escapes
    to the empty sequence, and its frame is the two delimiters. *)
Theorem X4_escape_message_concat (p q : bytes) :
  escape_message (p ++ q) = escape_message p ++ escape_message q
  /\ escape_message [] = []
  /\ frame [] = [0xfd; 0xfe]
  /\ frame (p ++ q)
     = [0xfd] ++ escape_message p ++ escape_message q ++ [0xfe].
Proof.
  split; [apply escape_message_app|]. split; [done|]. split; [done|].
  unfold frame. by rewrite escape_message_app, <- app_assoc.
Qed.

(** ** Message encoder *)

Lemma be_bytes_are_bytes (n : nat) (v : Z) :
  Forall (fun b => 0 <= b <= 255) (be_bytes n v).
Proof.
  revert v. induction n as [|n IH]; intros v; simpl; [constructor|].
  apply Forall_app. split; [apply IH|].
  constructor; [|constructor].
  pose proof (Z.mod_pos_bound v 256). lia.
Qed.

Lemma to_bytes_well_formed (v : Z) (n : nat) (signed : bool) (raw : bytes) :
  to_bytes v n signed = Ok raw ->
  length raw = n /\ Forall (fun b => 0 <= b <= 255) raw.
Proof.
  unfold to_bytes. intros Hraw.
  assert (raw = be_bytes n v) as ->.
  { destruct signed.
    - by destruct (_ && _); simplify_eq.
    - by destruct (_ && _); simplify_eq. }
  split; [apply length_be_bytes | apply be_bytes_are_bytes].
Qed.

(** Peels the checks and conversions off an encoder that returned. *)
Ltac encoder_inv H :=
  repeat match type of H with
         | bind ?r _ = Ok _ =>
             let E := fresh "E" in
             destruct r eqn:E; cbn [bind] in H; [|discriminate H]
         end;
  injection H as <-.

Ltac bytes_of_fields :=
  repeat match goal with
         | E : to_bytes _ _ _ = Ok _ |- _ =>
             apply to_bytes_well_formed in E as [? ?]
         end.

(** X5: whenever an encoder returns a message, the message is a sequence
    of bytes (0..255) of the fixed length of its command: 1 for reset,
    2 for the broadcast intensity, 3 for a module's type and intensity,
    4 for the speed divider, 6 for a module target and 7 for a
    sub-module target, immediate or not. *)
Theorem X5_encoders_return_fixed_length_bytes (a b t : Z) (msg : bytes) :
  let well_formed (r : result bytes) (n : nat) :=
    r = Ok msg -> length msg = n /\ Forall (fun x => 0 <= x <= 255) msg in
  well_formed MaxyMessages.reset_all_module_config_message 1%nat
  /\ well_formed (MaxyMessages.set_all_module_intensity a) 2%nat
  /\ well_formed (MaxyMessages.set_module_type a b) 3%nat
  /\ well_formed (MaxyMessages.set_module_intensity a b) 3%nat
  /\ well_formed (MaxyMessages.set_module_speed_divider a b) 4%nat
  /\ well_formed (MaxyMessages.set_module_target_message a t) 6%nat
  /\ well_formed (MaxyMessages.set_module_immediate_target_message a t) 6%nat
  /\ well_formed (MaxyMessages.set_sub_module_target_message a b t) 7%nat
  /\ well_formed (MaxyMessages.set_sub_module_immediate_target_message a b t)
       7%nat.
Proof.
  cbv zeta. repeat match goal with |- _ /\ _ => split end; intros H;
    try (by injection H as <-; split; [|repeat constructor]);
    revert H;
    unfold MaxyMessages.set_all_module_intensity,
      MaxyMessages.set_module_type, MaxyMessages.set_module_intensity,
      MaxyMessages.set_module_speed_divider,
      MaxyMessages.set_module_target_message,
      MaxyMessages.set_module_immediate_target_message,
      MaxyMessages.set_sub_module_target_message,
      MaxyMessages.set_sub_module_immediate_target_message;
    intros H; encoder_inv H; bytes_of_fields;
    (split;
     [simpl; rewrite ?length_app; lia
     | constructor; [lia | by rewrite ?Forall_app]]).
Qed.

Lemma X5_encoders_return_fixed_length_bytes_witness :
  length [0x43; 3; 1; 255; 255; 255; 255] = 7%nat
  /\ Forall (fun x => 0 <= x <= 255) [0x43; 3; 1; 255; 255; 255; 255].
Proof.
  pose proof (X5_encoders_return_fixed_length_bytes 3 1 (-1)
                [0x43; 3; 1; 255; 255; 255; 255]) as H.
  cbv zeta in H. destruct H as (_ & _ & _ & _ & _ & _ & _ & H & _).
  apply H. reflexivity.
Defined.

(** X6: [set_all_module_intensity] returns the two bytes 0x33, intensity
    exactly for an intensity in 0..15; otherwise it raises the range
    error that names "intensity" with the value and the bounds. *)
Theorem X6_set_all_module_intensity (intensity : Z) :
  (0 <= intensity <= 15 ->
   MaxyMessages.set_all_module_intensity intensity = Ok [0x33; intensity])
  /\ (~ 0 <= intensity <= 15 ->
      MaxyMessages.set_all_module_intensity intensity
      = Raise (ValueError_range "intensity" intensity 0 15)).
Proof.
  unfold MaxyMessages.set_all_module_intensity. split; intros Hi.
  - rewrite range_validate_int_in by done. cbn [bind].
    by rewrite to_bytes_1 by lia.
  - by rewrite range_validate_int_out by done.
Qed.

Lemma X6_set_all_module_intensity_witness :
  MaxyMessages.set_all_module_intensity 3 = Ok [0x33; 3]
  /\ MaxyMessages.set_all_module_intensity 16
     = Raise (ValueError_range "intensity" 16 0 15).
Proof.
  split.
  - apply (X6_set_all_module_intensity 3). lia.
  - apply (X6_set_all_module_intensity 16). lia.
Defined.

(** X7: [set_module_target_message] and its immediate variant return six
    bytes for a module index in 0..63 and a target in
    -9999999..99999999: the opcode (0x42, 0x44 for immediate), the
    module index, and four bytes that read back, as a big-endian signed
    number, as the target.  A module index out of range raises the
    error on "module_index", whatever the target; with a valid module
    index, a target out of range raises the error on "target". *)
Theorem X7_set_module_target_message (module_index target : Z) :
  let in_range := -9999999 <= target <= 99999999 in
  (0 <= module_index <= 63 -> in_range ->
   MaxyMessages.set_module_target_message module_index target
   = Ok ([0x42; module_index] ++ be_bytes 4 target)
   /\ MaxyMessages.set_module_immediate_target_message module_index target
      = Ok ([0x44; module_index] ++ be_bytes 4 target)
   /\ length ([0x42; module_index] ++ be_bytes 4 target) = 6%nat
   /\ from_bytes_signed (be_bytes 4 target) = target)
  /\ (~ 0 <= module_index <= 63 ->
      MaxyMessages.set_module_target_message module_index target
      = Raise (ValueError_range "module_index" module_index 0 63)
      /\ MaxyMessages.set_module_immediate_target_message module_index target
         = Raise (ValueError_range "module_index" module_index 0 63))
  /\ (0 <= module_index <= 63 -> ~ in_range ->
      MaxyMessages.set_module_target_message module_index target
      = Raise (ValueError_range "target" target (-9999999) 99999999)
      /\ MaxyMessages.set_module_immediate_target_message module_index target
         = Raise (ValueError_range "target" target (-9999999) 99999999)).
Proof.
  intros in_range. subst in_range.
  unfold MaxyMessages.set_module_target_message,
    MaxyMessages.set_module_immediate_target_message.
  split; [|split].
  - intros Hm Ht. rewrite !range_validate_int_in by done. cbn [bind].
    rewrite !to_bytes_1 by lia. cbn [bind].
    rewrite !to_bytes_4_signed by lia. cbn [bind].
    split; [done|]. split; [done|]. split.
    + by rewrite length_app, length_be_bytes.
    + apply from_bytes_signed_be_bytes_4. lia.
  - intros Hm. by rewrite !range_validate_int_out by done.
  - intros Hm Ht. rewrite !(range_validate_int_in module_index) by done.
    cbn [bind]. by rewrite !range_validate_int_out by done.
Qed.

Lemma X7_set_module_target_message_witness :
  MaxyMessages.set_module_target_message 2 (-2)
  = Ok [0x42; 2; 255; 255; 255; 254]
  /\ MaxyMessages.set_module_target_message 64 100000000
     = Raise (ValueError_range "module_index" 64 0 63)
  /\ MaxyMessages.set_module_immediate_target_message 0 100000000
     = Raise (ValueError_range "target" 100000000 (-9999999) 99999999).
Proof.
  split; [|split].
  - apply (X7_set_module_target_message 2 (-2)); lia.
  - apply (X7_set_module_target_message 64 100000000). lia.
  - apply (X7_set_module_target_message 0 100000000); lia.
Defined.

(** X8: [set_module_type] returns the three bytes 0x3A, module index,
    module type for both in 0..63; a module index out of range raises
    the error on "module_index", and with a valid module index a type
    out of range raises the error on "module_type". *)
Theorem X8_set_module_type (module_index module_type : Z) :
  (0 <= module_index <= 63 -> 0 <= module_type <= 63 ->
   MaxyMessages.set_module_type module_index module_type
   = Ok [0x3a; module_index; module_type])
  /\ (~ 0 <= module_index <= 63 ->
      MaxyMessages.set_module_type module_index module_type
      = Raise (ValueError_range "module_index" module_index 0 63))
  /\ (0 <= module_index <= 63 -> ~ 0 <= module_type <= 63 ->
      MaxyMessages.set_module_type module_index module_type
      = Raise (ValueError_range "module_type" module_type 0 63)).
Proof.
  unfold MaxyMessages.set_module_type. split; [|split].
  - intros Hm Ht. rewrite !range_validate_int_in by done. cbn [bind].
    by rewrite !to_bytes_1 by lia.
  - intros Hm. by rewrite range_validate_int_out by done.
  - intros Hm Ht. rewrite range_validate_int_in by done. cbn [bind].
    by rewrite range_validate_int_out by done.
Qed.

Lemma X8_set_module_type_witness :
  MaxyMessages.set_module_type 8 4 = Ok [0x3a; 8; 4]
  /\ MaxyMessages.set_module_type (-1) 4
     = Raise (ValueError_range "module_index" (-1) 0 63)
  /\ MaxyMessages.set_module_type 8 64
     = Raise (ValueError_range "module_type" 64 0 63).
Proof.
  split; [|split].
  - apply (X8_set_module_type 8 4); lia.
  - apply (X8_set_module_type (-1) 4). lia.
  - apply (X8_set_module_type 8 64); lia.
Defined.

Lemma range_validate_int_inv (val lo hi r : Z) (param_name : string) :
  range_validate_int val lo hi param_name = Ok r -> lo <= val <= hi /\ r = val.
Proof.
  unfold range_validate_int.
  destruct (Z.leb_spec lo val), (Z.leb_spec val hi); simpl; try done.
  intros [= <-]. lia.
Qed.

Lemma to_bytes_1_inv (v : Z) (raw : bytes) :
  to_bytes v 1 false = Ok raw -> 0 <= v <= 255 /\ raw = [v].
Proof.
  unfold to_bytes. change (2 ^ (8 * Z.of_nat 1)) with 256.
  destruct (Z.leb_spec 0 v), (Z.ltb_spec v 256); simpl; try done.
  intros [= <-]. split; [lia|]. by rewrite Z.mod_small by lia.
Qed.

Lemma be_bytes_4_inj (t t' : Z) :
  -2147483648 <= t <= 2147483647 -> -2147483648 <= t' <= 2147483647 ->
  be_bytes 4 t = be_bytes 4 t' -> t = t'.
Proof.
  intros Ht Ht' Heq.
  rewrite <- (from_bytes_signed_be_bytes_4 t), <- (from_bytes_signed_be_bytes_4 t')
    by done.
  by rewrite Heq.
Qed.

Lemma set_sub_module_target_message_inv (m s t : Z) (msg : bytes) :
  MaxyMessages.set_sub_module_target_message m s t = Ok msg ->
  0 <= m <= 63 /\ 0 <= s <= 7 /\ -9999999 <= t <= 99999999
  /\ msg = [0x43; m; s] ++ be_bytes 4 t.
Proof.
  intros H. pose proof H as H'.
  unfold MaxyMessages.set_sub_module_target_message in H'.
  repeat match type of H' with
         | bind ?r _ = Ok _ =>
             let E := fresh "E" in
             destruct r eqn:E; cbn [bind] in H'; [|discriminate H']
         end.
  apply range_validate_int_inv in E as [Hm _], E0 as [Hs _], E1 as [Ht _].
  clear H'. rewrite set_sub_module_target_message_ok in H by done.
  injection H as <-. repeat split; lia.
Qed.

Lemma set_sub_module_immediate_target_message_inv (m s t : Z) (msg : bytes) :
  MaxyMessages.set_sub_module_immediate_target_message m s t = Ok msg ->
  0 <= m <= 63 /\ 0 <= s <= 255 /\ -9999999 <= t <= 99999999
  /\ msg = [0x45; m; s] ++ be_bytes 4 t.
Proof.
  intros H. pose proof H as H'.
  unfold MaxyMessages.set_sub_module_immediate_target_message in H'.
  repeat match type of H' with
         | bind ?r _ = Ok _ =>
             let E := fresh "E" in
             destruct r eqn:E; cbn [bind] in H'; [|discriminate H']
         end.
  apply range_validate_int_inv in E as [Hm _], E0 as [Ht _].
  apply to_bytes_1_inv in E2 as [Hs _].
  clear H'. rewrite set_sub_module_immediate_target_message_ok in H by done.
  injection H as <-. repeat split; lia.
Qed.

(** X9: [set_sub_module_target_message] checks module index, sub-module
    id and target in this order.  With all three in range (0..63, 0..7,
    -9999999..99999999) it returns the seven bytes 0x43, module,
    sub-module and the four bytes of the target; otherwise it raises
    the range error of the first field that is out of range. *)
Theorem X9_set_sub_module_target_message (module_index sub_module target : Z) :
  let enc :=
    MaxyMessages.set_sub_module_target_message module_index sub_module
      target in
  let m_ok := 0 <= module_index <= 63 in
  let s_ok := 0 <= sub_module <= 7 in
  let t_ok := -9999999 <= target <= 99999999 in
  (m_ok -> s_ok -> t_ok ->
   enc = Ok ([0x43; module_index; sub_module] ++ be_bytes 4 target))
  /\ (~ m_ok ->
      enc = Raise (ValueError_range "module_index" module_index 0 63))
  /\ (m_ok -> ~ s_ok ->
      enc = Raise (ValueError_range "sub_module" sub_module 0 7))
  /\ (m_ok -> s_ok -> ~ t_ok ->
      enc = Raise (ValueError_range "target" target (-9999999) 99999999))
  /\ ((exists msg, enc = Ok msg) <-> m_ok /\ s_ok /\ t_ok).
Proof.
  cbv zeta. split; [|split; [|split; [|split]]].
  - apply set_sub_module_target_message_ok.
  - intros Hm. unfold MaxyMessages.set_sub_module_target_message.
    by rewrite range_validate_int_out by done.
  - intros Hm Hs. unfold MaxyMessages.set_sub_module_target_message.
    rewrite range_validate_int_in by done. cbn [bind].
    by rewrite range_validate_int_out by done.
  - intros Hm Hs Ht. unfold MaxyMessages.set_sub_module_target_message.
    rewrite !range_validate_int_in by done. cbn [bind].
    by rewrite range_validate_int_out by done.
  - split.
    + intros [msg Hmsg].
      by apply set_sub_module_target_message_inv in Hmsg as (? & ? & ? & _).
    + intros (Hm & Hs & Ht). eexists.
      by apply set_sub_module_target_message_ok.
Qed.

Lemma X9_set_sub_module_target_message_witness :
  MaxyMessages.set_sub_module_target_message 1 7 9999
  = Ok [0x43; 1; 7; 0; 0; 0x27; 0x0f]
  /\ MaxyMessages.set_sub_module_target_message 1 8 100000000
     = Raise (ValueError_range "sub_module" 8 0 7).
Proof.
  split.
  - apply (X9_set_sub_module_target_message 1 7 9999); lia.
  - apply (X9_set_sub_module_target_message 1 8 100000000); lia.
Defined.

(** X10: a sub-module target message determines its command: two calls
    of [set_sub_module_target_message] that return the same message had
    the same module index, sub-module id and target; likewise for the
    immediate variant; and a message of one variant is never a message
    of the other. *)
Theorem X10_sub_module_target_messages_distinct
    (m s t m' s' t' : Z) (msg msg' : bytes) :
  (MaxyMessages.set_sub_module_target_message m s t = Ok msg ->
   MaxyMessages.set_sub_module_target_message m' s' t' = Ok msg ->
   m = m' /\ s = s' /\ t = t')
  /\ (MaxyMessages.set_sub_module_immediate_target_message m s t = Ok msg ->
      MaxyMessages.set_sub_module_immediate_target_message m' s' t' = Ok msg ->
      m = m' /\ s = s' /\ t = t')
  /\ (MaxyMessages.set_sub_module_target_message m s t = Ok msg ->
      MaxyMessages.set_sub_module_immediate_target_message m' s' t' = Ok msg' ->
      msg <> msg').
Proof.
  split; [|split].
  - intros H H'.
    apply set_sub_module_target_message_inv in H as (_ & _ & Ht & ->).
    apply set_sub_module_target_message_inv in H' as (_ & _ & Ht' & Heq).
    apply app_inj_1 in Heq as [Hhead Htail]; [|done].
    injection Hhead as -> ->. repeat split.
    apply be_bytes_4_inj; [lia | lia | done].
  - intros H H'.
    apply set_sub_module_immediate_target_message_inv in H
      as (_ & _ & Ht & ->).
    apply set_sub_module_immediate_target_message_inv in H'
      as (_ & _ & Ht' & Heq).
    apply app_inj_1 in Heq as [Hhead Htail]; [|done].
    injection Hhead as -> ->. repeat split.
    apply be_bytes_4_inj; [lia | lia | done].
  - intros H H'.
    apply set_sub_module_target_message_inv in H as (_ & _ & _ & ->).
    apply set_sub_module_immediate_target_message_inv in H'
      as (_ & _ & _ & ->).
    discriminate.
Qed.

Lemma X10_sub_module_target_messages_distinct_witness :
  [0x43; 1; 0; 0; 0; 0; 5] <> [0x45; 1; 0; 0; 0; 0; 5].
Proof.
  apply (X10_sub_module_target_messages_distinct 1 0 5 1 0 5
           [0x43; 1; 0; 0; 0; 0; 5] [0x45; 1; 0; 0; 0; 0; 5]);
    reflexivity.
Defined.

(** ** [clamp], [retry_delay] and [DictObject] *)

(** X11: [clamp] never returns more than [max_value]; with
    [min_value <= max_value] the result lies between the two, is the
    value itself when the value does, and clamping again changes
    nothing; with [min_value > max_value] the result is [max_value],
    whatever the value. *)
Theorem X11_clamp (value min_value max_value : Z) :
  clamp value min_value max_value <= max_value
  /\ (min_value <= max_value ->
      min_value <= clamp value min_value max_value <= max_value
      /\ (min_value <= value <= max_value ->
          clamp value min_value max_value = value)
      /\ clamp (clamp value min_value max_value) min_value max_value
         = clamp value min_value max_value)
  /\ (max_value < min_value -> clamp value min_value max_value = max_value).
Proof. unfold clamp. lia. Qed.

Lemma X11_clamp_witness :
  clamp 20000 (-999) 9999 = 9999 /\ clamp 5 10 0 = 0.
Proof.
  split.
  - pose proof (X11_clamp 20000 (-999) 9999) as (_ & H & _).
    destruct H as ((Hlo & Hhi) & _ & _); [lia|].
    unfold clamp in *. lia.
  - apply (X11_clamp 5 10 0). lia.
Defined.

(** X12: [retry_delay] is 5 for a count of 0 or less, 10 for a count of
    1 and 20 for a count of 2 or more: it never exceeds 20 and never
    decreases when the count grows. *)
Theorem X12_retry_delay (count count' : Z) :
  (count <= 0 -> retry_delay count = 5)
  /\ (count = 1 -> retry_delay count = 10)
  /\ (2 <= count -> retry_delay count = 20)
  /\ 5 <= retry_delay count <= 20
  /\ (count <= count' -> retry_delay count <= retry_delay count').
Proof.
  assert (forall n, retry_delay n = 5 /\ n <= 0
                    \/ retry_delay n = 10 /\ n = 1
                    \/ retry_delay n = 20 /\ 2 <= n) as Hcases.
  { intros n. unfold retry_delay, clamp.
    destruct (Z_le_gt_dec n 0); [left|right; destruct (Z.eq_dec n 1);
                                             [left|right]].
    - by rewrite Z.max_l, Z.min_r by lia.
    - subst n. by split.
    - rewrite Z.max_r, Z.min_l by lia. split; [done | lia]. }
  destruct (Hcases count) as [[-> ?]|[[-> ?]|[-> ?]]],
           (Hcases count') as [[-> ?]|[[-> ?]|[-> ?]]]; lia.
Qed.

Lemma X12_retry_delay_witness :
  retry_delay 0 = 5 /\ retry_delay 1 = 10 /\ retry_delay 7 = 20.
Proof.
  split; [|split].
  - apply (X12_retry_delay 0 0). lia.
  - apply (X12_retry_delay 1 1). lia.
  - apply (X12_retry_delay 7 7). lia.
Defined.

(** X13: [DictObject] looks up what was stored: after [d[key] = value]
    the key is contained and [__getitem__] and [get] return the value,
    while every other key reads as before; for a key that is not
    contained [__getitem__] fails and [get] returns the default; and
    after [clear] no key is contained. *)
Theorem X13_DictObject_lookup {V : Type} (values : gmap string V)
    (key item : string) (value default : V) :
  let values' := DictObject_setitem values key value in
  DictObject_contains values' key = true
  /\ DictObject_getitem values' key = Some value
  /\ DictObject_get values' key default = value
  /\ (item <> key ->
      DictObject_contains values' item = DictObject_contains values item
      /\ DictObject_getitem values' item = DictObject_getitem values item
      /\ DictObject_get values' item default
         = DictObject_get values item default)
  /\ (DictObject_contains values item = false <->
      DictObject_getitem values item = None)
  /\ (DictObject_contains values item = false ->
      DictObject_get values item default = default)
  /\ DictObject_contains (DictObject_clear values) item = false.
Proof.
  unfold DictObject_contains, DictObject_get, DictObject_getitem,
    DictObject_setitem, DictObject_clear.
  cbv zeta. rewrite lookup_insert_eq, lookup_empty.
  split; [by apply bool_decide_eq_true|]. split; [done|]. split; [done|].
  split; [|split; [|split]].
  - intros Hne. by rewrite lookup_insert_ne.
  - rewrite bool_decide_eq_false. destruct (values !! item); [|done].
    split; [intros []; by eexists | done].
  - rewrite bool_decide_eq_false. destruct (values !! item); [|done].
    intros []. by eexists.
  - apply bool_decide_eq_false. by intros [? ?].
Qed.

Lemma X13_DictObject_lookup_witness :
  DictObject_get (DictObject_setitem (∅ : gmap string nat) "a" 1%nat)
    "b" 7%nat = 7%nat.
Proof.
  pose proof (X13_DictObject_lookup (∅ : gmap string nat) "a" "b" 1%nat 7%nat)
    as H.
  cbv zeta in H. destruct H as (_ & _ & _ & H & _ & Hdefault & _).
  destruct H as (_ & _ & ->); [done|].
  apply Hdefault. reflexivity.
Defined.

(** ** Sending *)

Lemma send_message_name (msg : bytes) (c : MaxyController) :
  name (fst (send_message msg c)) = name c.
Proof.
  unfold send_message, Mbind, serial.
  destruct (_serial c) as [s|]; [|done]. by destruct (isOpen s).
Qed.

Lemma send_message_connected_after (msg : bytes) (c : MaxyController) :
  connected (fst (send_message msg c)) = connected c
  /\ port_outcome (fst (send_message msg c)) = port_outcome c.
Proof.
  unfold send_message, Mbind, serial, connected, port_outcome, Serial_write.
  destruct (_serial c) as [s|] eqn:Hs; simpl; [|by rewrite ?Hs].
  destruct (isOpen s) eqn:Hopen; simpl; by rewrite ?Hs, ?Hopen.
Qed.

(** X14: [send_message] without a port, or with a closed one, raises
    [IOError] and leaves the controller as it was.  With an open port it
    hands over exactly one byte sequence, the frame of the message, also
    when the port then fails; it raises what the port raises and nothing
    else.  It never touches the modules or the names. *)
Theorem X14_send_message (msg : bytes) (c : MaxyController) :
  let r := send_message msg c in
  (connected c = false -> r = (c, Raise IOError))
  /\ (connected c = true ->
      sink (fst r) = sink c ++ [frame msg]
      /\ snd r = port_outcome c
      /\ (snd r = Ok tt \/ snd r = Raise SerialTimeoutException
          \/ snd r = Raise SerialException))
  /\ index (fst r) = index c
  /\ name (fst r) = name c.
Proof.
  cbv zeta. split; [apply send_message_not_connected|].
  split; [|split; [apply send_message_index | apply send_message_name]].
  intros Hc. destruct (send_message_sink msg c Hc) as [Hsink Hout].
  split; [done|]. split; [done|]. rewrite Hout.
  unfold port_outcome, write_outcome, connected in *.
  destruct (_serial c) as [s|]; [|done].
  destruct (write_fault s) as [[]|]; auto.
Qed.

Lemma X14_send_message_witness :
  send_message [0x32] MaxyController_init = (MaxyController_init, Raise IOError)
  /\ sink (fst (send_message [0x32] demo_controller))
     = sink demo_controller ++ [[0xfd; 0x32; 0xfe]].
Proof.
  split.
  - apply (X14_send_message [0x32] MaxyController_init). reflexivity.
  - apply (X14_send_message [0x32] demo_controller). reflexivity.
Defined.

(** ** What the setters change *)

Lemma list_alter_fixed {A : Type} (f : A -> A) (l : list A) (i : nat) (x : A) :
  l !! i = Some x -> f x = x -> alter f i l = l.
Proof.
  revert i. induction l as [|y l IH]; intros [|i] Hi Hx; simpl in *;
    try done.
  - by simplify_eq; rewrite Hx.
  - f_equal. by apply IH.
Qed.

Lemma with_target_same (sub : nat) (m : MaxyModule) (sm : MaxySubModule) :
  sub_modules m !! sub = Some sm -> with_target sub (_target sm) m = m.
Proof.
  intros Hsm. unfold with_target. destruct m as [cls i n subs]. simpl in *.
  f_equal. apply (list_alter_fixed _ _ _ sm Hsm). by destruct sm.
Qed.

(** The index after a sub-module target operation on an existing
    sub-module, whatever the outcome. *)
Lemma sub_module_target_op_index_found (immediate : bool)
    (c : MaxyController) (pos sub : nat) (m : MaxyModule)
    (sm : MaxySubModule) (value : Z) :
  index c !! pos = Some m -> sub_modules m !! sub = Some sm ->
  index (fst (sub_module_target_op immediate pos sub value c))
  = alter (with_target sub (clamp value (TARGET_MIN (module_class_of m))
                                        (TARGET_MAX (module_class_of m))))
          pos (index c).
Proof.
  intros Hm Hsm. set (t := clamp value _ _).
  destruct (decide (t = _target sm)) as [Heq|Hne].
  - rewrite (sub_module_target_op_unchanged c pos sub m sm) by done.
    simpl. symmetry. apply (list_alter_fixed _ _ _ m Hm).
    rewrite Heq. by apply with_target_same.
  - unfold sub_module_target_op. destruct immediate.
    + rewrite (MaxySubModule_set_immediate_target_changed c pos sub m sm)
        by done.
      destruct (MaxyMessages.set_sub_module_immediate_target_message _ _ _);
        [|done].
      by rewrite send_message_index.
    + rewrite (MaxySubModule__set_target_changed c pos sub m sm) by done.
      destruct (MaxyMessages.set_sub_module_target_message _ _ _); [|done].
      by rewrite send_message_index.
Qed.

Lemma sub_module_target_op_missing (immediate : bool) (c : MaxyController)
    (pos sub : nat) (value : Z) :
  cached_target c pos sub = None ->
  sub_module_target_op immediate pos sub value c = (c, Raise IndexError).
Proof.
  unfold cached_target. intros Hnone. unfold sub_module_target_op.
  destruct (index c !! pos) as [m|] eqn:Hm; simpl in Hnone.
  - destruct (sub_modules m !! sub) as [sm|] eqn:Hsm; [done|].
    destruct immediate;
      unfold MaxySubModule_set_immediate_target, MaxySubModule__set_target;
      read_module Hm;
      unfold Mbind at 1; unfold get_sub_module, Mbind, get_module;
      rewrite Hm; cbv beta iota; by rewrite Hsm.
  - destruct immediate;
      unfold MaxySubModule_set_immediate_target, MaxySubModule__set_target;
      by read_module Hm.
Qed.

Lemma sub_module_target_op_name (immediate : bool) (c : MaxyController)
    (pos sub : nat) (value : Z) :
  name (fst (sub_module_target_op immediate pos sub value c)) = name c.
Proof.
  destruct (cached_target c pos sub) as [t0|] eqn:Hcache.
  - unfold cached_target in Hcache.
    destruct (index c !! pos) as [m|] eqn:Hm; [|done]. simpl in Hcache.
    destruct (sub_modules m !! sub) as [sm|] eqn:Hsm; [|done].
    destruct (decide (clamp value (TARGET_MIN (module_class_of m))
                                  (TARGET_MAX (module_class_of m))
                      = _target sm)) as [Heq|Hne].
    + by rewrite (sub_module_target_op_unchanged c pos sub m sm).
    + unfold sub_module_target_op. destruct immediate.
      * rewrite (MaxySubModule_set_immediate_target_changed c pos sub m sm)
          by done.
        destruct (MaxyMessages.set_sub_module_immediate_target_message
                    _ _ _); [|done].
        by rewrite send_message_name.
      * rewrite (MaxySubModule__set_target_changed c pos sub m sm) by done.
        destruct (MaxyMessages.set_sub_module_target_message _ _ _);
          [|done].
        by rewrite send_message_name.
  - by rewrite sub_module_target_op_missing.
Qed.

Lemma module_shape_with_target (sub : nat) (t : Z) (m : MaxyModule) :
  module_shape (with_target sub t m) = module_shape m.
Proof.
  unfold module_shape, with_target. simpl. f_equal.
  apply list_eq. intros i. rewrite !list_lookup_fmap.
  destruct (decide (i = sub)) as [->|Hne].
  - rewrite list_lookup_alter_eq. by destruct (sub_modules m !! sub).
  - by rewrite list_lookup_alter_ne.
Qed.

Lemma alter_keeps_shape (f : MaxyModule -> MaxyModule) (pos : nat)
    (modules : list MaxyModule) :
  (forall m, module_shape (f m) = module_shape m) ->
  module_shape <$> alter f pos modules = module_shape <$> modules.
Proof.
  intros Hf. apply list_eq. intros i. rewrite !list_lookup_fmap.
  destruct (decide (i = pos)) as [->|Hne].
  - rewrite list_lookup_alter_eq.
    destruct (modules !! pos); simpl; [|done]. by rewrite Hf.
  - by rewrite list_lookup_alter_ne.
Qed.

Lemma sub_module_target_op_shape (immediate : bool) (c : MaxyController)
    (pos sub : nat) (value : Z) :
  module_shape <$> index (fst (sub_module_target_op immediate pos sub value c))
  = module_shape <$> index c.
Proof.
  destruct (sub_module_target_op_index immediate pos sub value c)
    as [->|(m & Hm & ->)]; [done|].
  apply alter_keeps_shape. intros m'. apply module_shape_with_target.
Qed.

(** X15: a target or immediate-target assignment on a sub-module changes
    one cached target at most.  Whatever the outcome, the names, every
    cached intensity, every other cached target, and the class, index
    and sub-module ids of every module are what they were. *)
Theorem X15_target_operation_frame (immediate : bool) (c : MaxyController)
    (pos sub : nat) (value : Z) :
  let c' := fst (sub_module_target_op immediate pos sub value c) in
  name c' = name c
  /\ (forall p : nat, cached_intensity c' p = cached_intensity c p)
  /\ (forall p s : nat,
        (p, s) <> (pos, sub) -> cached_target c' p s = cached_target c p s)
  /\ module_shape <$> index c' = module_shape <$> index c.
Proof.
  cbv zeta. split; [apply sub_module_target_op_name|].
  destruct (sub_module_target_op_index immediate pos sub value c)
    as [Hsame|(m & Hm & Halter)].
  { rewrite Hsame. split; [|split]; try done.
    - intros p. by apply cached_intensity_index.
    - intros p s _. by apply cached_target_index. }
  split; [|split].
  - intros p. unfold cached_intensity. rewrite Halter.
    destruct (decide (p = pos)) as [->|Hne].
    + rewrite list_lookup_alter_eq. by destruct (index c !! pos).
    + by rewrite list_lookup_alter_ne.
  - intros p s Hps. unfold cached_target. rewrite Halter.
    destruct (decide (p = pos)) as [->|Hne].
    + rewrite list_lookup_alter_eq, Hm. simpl.
      rewrite list_lookup_alter_ne; [done|]. congruence.
    + by rewrite list_lookup_alter_ne.
  - apply sub_module_target_op_shape.
Qed.

Lemma X15_target_operation_frame_witness :
  cached_target (fst (MaxySubModule__set_target 1 1 77 demo_controller)) 1 0
  = cached_target demo_controller 1 0.
Proof.
  apply (X15_target_operation_frame false demo_controller 1 1 77).
  discriminate.
Defined.

(** X16: the cache remembers a value as soon as it is assigned.  After a
    target or immediate-target assignment on an existing sub-module,
    whatever its outcome (also when it raised because the port was
    closed or the encoder refused the module index), assigning the same
    value again, immediate or not, returns without sending and without
    changing anything. *)
Theorem X16_repeated_target_sends_nothing (immediate immediate' : bool)
    (c : MaxyController) (pos sub : nat) (m : MaxyModule)
    (sm : MaxySubModule) (value : Z) :
  index c !! pos = Some m -> sub_modules m !! sub = Some sm ->
  let c1 := fst (sub_module_target_op immediate pos sub value c) in
  sub_module_target_op immediate' pos sub value c1 = (c1, Ok tt).
Proof.
  intros Hm Hsm c1.
  set (t := clamp value (TARGET_MIN (module_class_of m))
                        (TARGET_MAX (module_class_of m))).
  assert (index c1 !! pos = Some (with_target sub t m)) as Hm1.
  { subst c1.
    rewrite (sub_module_target_op_index_found immediate c pos sub m sm)
      by done.
    by rewrite list_lookup_alter_eq, Hm. }
  assert (sub_modules (with_target sub t m) !! sub
          = Some {| sub_module_id := sub_module_id sm; _target := t |})
    as Hsm1.
  { simpl. by rewrite list_lookup_alter_eq, Hsm. }
  exact (sub_module_target_op_unchanged c1 pos sub _ _ Hm1 Hsm1 immediate'
           value eq_refl).
Qed.

Lemma X16_repeated_target_sends_nothing_witness :
  let unconnected :=
    define_modules [Some Right1] MaxyController_init in
  let c1 := fst (MaxySubModule__set_target 0 0 42 unconnected) in
  snd (MaxySubModule__set_target 0 0 42 unconnected) = Raise IOError
  /\ MaxySubModule_set_immediate_target 0 0 42 c1 = (c1, Ok tt).
Proof.
  split; [reflexivity|].
  apply (X16_repeated_target_sends_nothing false true
           (define_modules [Some Right1] MaxyController_init) 0 0
           (MaxyModule_init Class_MaxyModule_8x7seg 0)
           (MaxySubModule_init 0) 42 eq_refl eq_refl).
Defined.

Lemma module_target_op_allowed (immediate : bool) (c : MaxyController)
    (pos : nat) (m : MaxyModule) (value : Z) :
  index c !! pos = Some m ->
  ALLOW_MAIN_MODULE_TARGET_CHANGES (module_class_of m) = true ->
  module_target_op immediate pos value c
  = sub_module_target_op immediate pos 0 value c.
Proof.
  intros Hm Hallow. unfold module_target_op, sub_module_target_op.
  destruct immediate.
  - unfold MaxyModule_set_immediate_target. read_module Hm.
    by rewrite Hallow.
  - unfold MaxyModule__set_target. read_module Hm. rewrite Hallow.
    cbn [negb]. cbv iota. unfold Mbind, ret.
    by destruct (MaxySubModule__set_target pos 0 value c) as [c' [[]|e]].
Qed.

(** X17: on a module whose class allows it, assigning the module's
    target or immediate target is assigning that of its sub-module 0:
    the same controller and the same outcome result. *)
Theorem X17_main_target_is_sub_module_0 (immediate : bool)
    (c : MaxyController) (pos : nat) (m : MaxyModule) (value : Z) :
  index c !! pos = Some m ->
  ALLOW_MAIN_MODULE_TARGET_CHANGES (module_class_of m) = true ->
  module_target_op immediate pos value c
  = sub_module_target_op immediate pos 0 value c.
Proof. apply module_target_op_allowed. Qed.

Lemma X17_main_target_is_sub_module_0_witness :
  MaxyModule__set_target 0 42 demo_controller
  = MaxySubModule__set_target 0 0 42 demo_controller.
Proof.
  apply (X17_main_target_is_sub_module_0 false demo_controller 0
           (MaxyModule_init Class_MaxyModule_8x7seg 0) 42 eq_refl eq_refl).
Defined.

(** *** Getters *)

Lemma MaxySubModule__get_target_cached (c : MaxyController) (pos sub : nat) :
  MaxySubModule__get_target pos sub c
  = (c, match cached_target c pos sub with
        | Some t => Ok t
        | None => Raise IndexError
        end).
Proof.
  unfold MaxySubModule__get_target, cached_target, get_sub_module, Mbind,
    get_module, ret, raise.
  destruct (index c !! pos) as [m|]; simpl; [|done].
  by destruct (sub_modules m !! sub).
Qed.

Lemma MaxyModule__get_intensity_cached (c : MaxyController) (pos : nat) :
  MaxyModule__get_intensity pos c
  = (c, match cached_intensity c pos with
        | Some i => Ok i
        | None => Raise IndexError
        end).
Proof.
  unfold MaxyModule__get_intensity, cached_intensity, Mbind, get_module, ret.
  by destruct (index c !! pos).
Qed.

(** *** Intensity *)

Lemma with_intensity_same (m : MaxyModule) :
  with_intensity (_intensity m) m = m.
Proof. by destruct m. Qed.

Lemma MaxyModule__set_intensity_missing (c : MaxyController) (pos : nat)
    (intensity : Z) :
  index c !! pos = None ->
  MaxyModule__set_intensity pos intensity c = (c, Raise IndexError).
Proof. intros Hm. unfold MaxyModule__set_intensity. by read_module Hm. Qed.

Lemma MaxyModule__set_intensity_index (c : MaxyController) (pos : nat)
    (intensity : Z) :
  index (fst (MaxyModule__set_intensity pos intensity c))
  = alter (with_intensity (clamp intensity 0 15)) pos (index c).
Proof.
  destruct (index c !! pos) as [m|] eqn:Hm.
  - destruct (decide (clamp intensity 0 15 = _intensity m)) as [Heq|Hne].
    + rewrite (MaxyModule__set_intensity_unchanged c pos m) by done.
      simpl. symmetry. apply (list_alter_fixed _ _ _ m Hm).
      rewrite Heq. apply with_intensity_same.
    + rewrite (MaxyModule__set_intensity_changed c pos m) by done. cbv zeta.
      destruct (MaxyMessages.set_module_intensity _ _); [|done].
      by rewrite send_message_index.
  - rewrite MaxyModule__set_intensity_missing by done. simpl.
    symmetry. apply list_eq. intros i.
    destruct (decide (i = pos)) as [->|Hne].
    + by rewrite list_lookup_alter_eq, Hm.
    + by rewrite list_lookup_alter_ne.
Qed.

Lemma MaxyModule__set_intensity_name (c : MaxyController) (pos : nat)
    (intensity : Z) :
  name (fst (MaxyModule__set_intensity pos intensity c)) = name c.
Proof.
  destruct (index c !! pos) as [m|] eqn:Hm.
  - destruct (decide (clamp intensity 0 15 = _intensity m)) as [Heq|Hne].
    + by rewrite (MaxyModule__set_intensity_unchanged c pos m).
    + rewrite (MaxyModule__set_intensity_changed c pos m) by done. cbv zeta.
      destruct (MaxyMessages.set_module_intensity _ _); [|done].
      by rewrite send_message_name.
  - by rewrite MaxyModule__set_intensity_missing.
Qed.

(** X18: reading back.  After a target or immediate-target assignment on
    an existing sub-module the sub-module's [target] reads as the
    clamped value, and after an intensity assignment on an existing
    module its [intensity] reads as the value clamped to 0..15, whatever
    the outcome of the assignment; a getter never changes the
    controller, and on a position that does not exist it raises
    [IndexError]. *)
Theorem X18_getters_read_back (immediate : bool) (c : MaxyController)
    (pos sub : nat) (m : MaxyModule) (sm : MaxySubModule) (value : Z) :
  index c !! pos = Some m -> sub_modules m !! sub = Some sm ->
  let c1 := fst (sub_module_target_op immediate pos sub value c) in
  let c2 := fst (MaxyModule__set_intensity pos value c) in
  MaxySubModule__get_target pos sub c1
  = (c1, Ok (clamp value (TARGET_MIN (module_class_of m))
                         (TARGET_MAX (module_class_of m))))
  /\ MaxyModule__get_intensity pos c2 = (c2, Ok (clamp value 0 15))
  /\ MaxySubModule__get_target pos sub c = (c, Ok (_target sm))
  /\ MaxyModule__get_target pos c = MaxySubModule__get_target pos 0 c
  /\ (forall p s : nat,
        cached_target c p s = None ->
        MaxySubModule__get_target p s c = (c, Raise IndexError)).
Proof.
  intros Hm Hsm c1 c2. split; [|split; [|split; [|split]]].
  - rewrite MaxySubModule__get_target_cached. subst c1.
    by rewrite (sub_module_target_op_cached immediate c pos sub m sm).
  - rewrite MaxyModule__get_intensity_cached. subst c2.
    unfold cached_intensity. rewrite MaxyModule__set_intensity_index.
    by rewrite list_lookup_alter_eq, Hm.
  - rewrite MaxySubModule__get_target_cached. unfold cached_target.
    rewrite Hm. simpl. by rewrite Hsm.
  - done.
  - intros p s Hnone. by rewrite MaxySubModule__get_target_cached, Hnone.
Qed.

Lemma X18_getters_read_back_witness :
  fst (MaxySubModule__get_target 1 1
         (fst (MaxySubModule__set_target 1 1 (-5000) demo_controller)))
  = fst (MaxySubModule__set_target 1 1 (-5000) demo_controller)
  /\ snd (MaxySubModule__get_target 1 1
            (fst (MaxySubModule__set_target 1 1 (-5000) demo_controller)))
     = Ok (-999).
Proof.
  pose proof (X18_getters_read_back false demo_controller 1 1
                (MaxyModule_init Class_MaxyModule_2x4x7seg 1)
                (MaxySubModule_init 1) (-5000) eq_refl eq_refl) as [H _].
  cbv zeta in H. unfold sub_module_target_op in H. rewrite H.
  split; reflexivity.
Defined.

(** X19: on a connected controller, for a module with an index in
    0..15: assigning an intensity whose value clamped to 0..15 equals
    the cached intensity leaves the controller as it was; otherwise the
    clamped value is stored and exactly one frame goes to the port, that
    of the three bytes 0x46, module index, clamped intensity. *)
Theorem X19_intensity_sent_only_on_change (c : MaxyController) (pos : nat)
    (m : MaxyModule) (intensity : Z) :
  index c !! pos = Some m -> connected c = true ->
  0 <= module_index m <= 15 ->
  let t := clamp intensity 0 15 in
  let r := MaxyModule__set_intensity pos intensity c in
  (t = _intensity m -> r = (c, Ok tt))
  /\ (t <> _intensity m ->
      cached_intensity (fst r) pos = Some t
      /\ sink (fst r) = sink c ++ [frame [0x46; module_index m; t]]
      /\ snd r = port_outcome c).
Proof.
  intros Hm Hc Hmi t r. split.
  - intros Heq. by apply (MaxyModule__set_intensity_unchanged c pos m).
  - intros Hne. split.
    + unfold cached_intensity. subst r.
      rewrite MaxyModule__set_intensity_index.
      by rewrite list_lookup_alter_eq, Hm.
    + subst r. rewrite (MaxyModule__set_intensity_changed c pos m) by done.
      cbv zeta. fold t.
      rewrite set_module_intensity_ok by (unfold t, clamp; lia).
      apply (send_message_sink _ {| _serial := _serial c |}). exact Hc.
Qed.

Lemma X19_intensity_sent_only_on_change_witness :
  sink (fst (MaxyModule__set_intensity 1 99 demo_controller))
  = sink demo_controller ++ [[0xfd; 0x46; 1; 15; 0xfe]]
  /\ MaxyModule__set_intensity 1 (-3) demo_controller
     = (demo_controller, Ok tt).
Proof.
  assert (0 <= module_index (MaxyModule_init Class_MaxyModule_2x4x7seg 1)
          <= 15) as Hmi by (simpl; lia).
  split.
  - apply (X19_intensity_sent_only_on_change demo_controller 1
             (MaxyModule_init Class_MaxyModule_2x4x7seg 1) 99
             eq_refl eq_refl Hmi).
    discriminate.
  - apply (X19_intensity_sent_only_on_change demo_controller 1
             (MaxyModule_init Class_MaxyModule_2x4x7seg 1) (-3)
             eq_refl eq_refl Hmi).
    reflexivity.
Defined.

Lemma module_shape_with_intensity (i : Z) (m : MaxyModule) :
  module_shape (with_intensity i m) = module_shape m.
Proof. done. Qed.

Lemma define_modules_intensities
    (module_definitions : list (option MaxModuleDef)) (c : MaxyController) :
  intensities_in_range (define_modules module_definitions c).
Proof.
  unfold intensities_in_range. apply Forall_forall. intros m Hin.
  apply define_modules_fresh in Hin as (cls & i & -> & _). simpl. lia.
Qed.

Lemma MaxyModule__set_intensity_shape (c : MaxyController) (pos : nat)
    (intensity : Z) :
  module_shape <$> index (fst (MaxyModule__set_intensity pos intensity c))
  = module_shape <$> index c.
Proof.
  rewrite MaxyModule__set_intensity_index. by apply alter_keeps_shape.
Qed.

(** X20: every cached intensity lies in 0..15.  Registration establishes
    this (each starts at 0) and every assignment of an intensity or of
    a target keeps it, whatever value is requested and whatever the
    outcome.  An intensity assignment changes nothing but the one cached
    intensity: the names, every cached target, and the class, index and
    sub-module ids of every module stay as they were. *)
Theorem X20_cached_intensities_stay_in_range (c : MaxyController)
    (immediate : bool) (pos sub : nat) (value : Z) :
  intensities_in_range c ->
  let c1 := fst (MaxyModule__set_intensity pos value c) in
  intensities_in_range c1
  /\ intensities_in_range
       (fst (sub_module_target_op immediate pos sub value c))
  /\ (forall (module_definitions : list (option MaxModuleDef))
             (c0 : MaxyController),
        intensities_in_range (define_modules module_definitions c0))
  /\ name c1 = name c
  /\ (forall p s : nat, cached_target c1 p s = cached_target c p s)
  /\ (forall p : nat,
        p <> pos -> cached_intensity c1 p = cached_intensity c p)
  /\ module_shape <$> index c1 = module_shape <$> index c.
Proof.
  intros Hinv c1. subst c1.
  split; [|split; [|split; [|split; [|split; [|split]]]]].
  - unfold intensities_in_range. rewrite MaxyModule__set_intensity_index.
    apply Forall_alter; [done|]. intros m _ _. simpl. unfold clamp. lia.
  - unfold intensities_in_range in *.
    destruct (sub_module_target_op_index immediate pos sub value c)
      as [->|(m & Hm & ->)]; [done|].
    by apply Forall_alter.
  - apply define_modules_intensities.
  - apply MaxyModule__set_intensity_name.
  - intros p s. unfold cached_target.
    rewrite MaxyModule__set_intensity_index.
    destruct (decide (p = pos)) as [->|Hne].
    + rewrite list_lookup_alter_eq. by destruct (index c !! pos).
    + by rewrite list_lookup_alter_ne.
  - intros p Hne. unfold cached_intensity.
    rewrite MaxyModule__set_intensity_index.
    by rewrite list_lookup_alter_ne.
  - apply MaxyModule__set_intensity_shape.
Qed.

Lemma demo_controller_intensities : intensities_in_range demo_controller.
Proof.
  unfold intensities_in_range. vm_compute index.
  repeat constructor; simpl; lia.
Defined.

Lemma X20_cached_intensities_stay_in_range_witness :
  intensities_in_range (fst (MaxyModule__set_intensity 0 1000 demo_controller)).
Proof.
  apply (X20_cached_intensities_stay_in_range demo_controller false 0 0 1000
           demo_controller_intensities).
Defined.

(** ** Registration *)

Lemma fold_define_step_serial (entries : list (nat * option MaxModuleDef))
    (c : MaxyController) :
  _serial (fold_left define_step entries c) = _serial c.
Proof.
  revert c. induction entries as [|[i d] entries IH]; intros c; simpl;
    [done|].
  rewrite IH. unfold define_step. simpl. by destruct d.
Qed.

Lemma define_modules_serial (module_definitions : list (option MaxModuleDef))
    (c : MaxyController) :
  _serial (define_modules module_definitions c) = _serial c.
Proof. unfold define_modules. by rewrite fold_define_step_serial. Qed.

Lemma registered_index_bound (start : nat) (l : list (option MaxModuleDef))
    (p : nat) (m : MaxyModule) :
  omap defined_module (zip (seq start (length l)) l) !! p = Some m ->
  Z.of_nat start <= module_index m < Z.of_nat (start + length l).
Proof.
  revert start p. induction l as [|d l IH]; intros start p; [done|].
  simpl. unfold defined_module at 1. simpl.
  destruct d as [module_def|]; simpl.
  - destruct p as [|p]; simpl.
    + intros [= <-]. simpl. lia.
    + intros Hp. apply IH in Hp. lia.
  - intros Hp. apply IH in Hp. lia.
Qed.

Lemma registered_indexes_increasing (start : nat)
    (l : list (option MaxModuleDef)) (p q : nat) (m m' : MaxyModule) :
  (p < q)%nat ->
  omap defined_module (zip (seq start (length l)) l) !! p = Some m ->
  omap defined_module (zip (seq start (length l)) l) !! q = Some m' ->
  module_index m < module_index m'.
Proof.
  revert start p q. induction l as [|d l IH]; intros start p q Hpq; [done|].
  simpl. unfold defined_module at 1 3. simpl.
  destruct d as [module_def|]; simpl.
  - destruct p as [|p], q as [|q]; simpl; try lia.
    + intros [= <-] Hq. apply registered_index_bound in Hq. simpl. lia.
    + apply IH. lia.
  - by apply IH.
Qed.

Lemma registered_at_position (start : nat) (l : list (option MaxModuleDef))
    (i : nat) (d : MaxModuleDef) :
  Forall is_Some l -> l !! i = Some (Some d) ->
  omap defined_module (zip (seq start (length l)) l) !! i
  = Some (MaxyModule_init (def_module_type d) (Z.of_nat (start + i))).
Proof.
  intros Hall. revert start i.
  induction Hall as [|x l [d' ->] _ IH]; intros start i Hi; [done|].
  simpl. unfold defined_module at 1. simpl.
  destruct i as [|i]; simpl in *.
  - simplify_eq. by rewrite Nat.add_0_r.
  - replace (start + S i)%nat with (S start + i)%nat by lia.
    exact (IH (S start) i Hi).
Qed.

Lemma registered_count (start : nat) (l : list (option MaxModuleDef)) :
  Forall is_Some l ->
  length (omap defined_module (zip (seq start (length l)) l)) = length l.
Proof.
  intros Hall. revert start.
  induction Hall as [|x l [d' ->] _ IH]; intros start; [done|].
  simpl. unfold defined_module at 1. simpl. f_equal. exact (IH (S start)).
Qed.

(** X21: what [define_modules] registers.  The port is kept.  Every
    module in [index] is the fresh object of one of the definitions: its
    [module_index] is the place of that definition in the argument, its
    intensity is 0, and it has the sub-modules 0 .. SUB_MODULE_COUNT-1
    of its class, each with target 0.  The module indexes are strictly
    increasing along [index], so no two modules share one.  When no
    entry of the argument is empty, [index] has one module per
    definition and each module's index is its position. *)
Theorem X21_define_modules_contents
    (module_definitions : list (option MaxModuleDef)) (c : MaxyController) :
  let c' := define_modules module_definitions c in
  _serial c' = _serial c
  /\ (forall (pos : nat) (m : MaxyModule),
        index c' !! pos = Some m ->
        exists (i : nat) (d : MaxModuleDef),
          module_definitions !! i = Some (Some d)
          /\ m = MaxyModule_init (def_module_type d) (Z.of_nat i)
          /\ _intensity m = 0
          /\ length (sub_modules m) = SUB_MODULE_COUNT (def_module_type d)
          /\ (forall (k : nat) (sm : MaxySubModule),
                sub_modules m !! k = Some sm ->
                sub_module_id sm = Z.of_nat k /\ _target sm = 0))
  /\ (forall (p q : nat) (m m' : MaxyModule),
        (p < q)%nat ->
        index c' !! p = Some m -> index c' !! q = Some m' ->
        module_index m < module_index m')
  /\ (Forall is_Some module_definitions ->
      length (index c') = length module_definitions
      /\ (forall (i : nat) (d : MaxModuleDef),
            module_definitions !! i = Some (Some d) ->
            index c' !! i
            = Some (MaxyModule_init (def_module_type d) (Z.of_nat i)))).
Proof.
  cbv zeta. rewrite define_modules_index.
  split; [apply define_modules_serial|]. split; [|split].
  - intros pos m Hpos.
    assert (m ∈ omap defined_module
              (zip (seq 0 (length module_definitions)) module_definitions))
      as Hin by (apply list_elem_of_lookup; eauto).
    apply list_elem_of_omap in Hin as ([i od] & Hin & Hdef).
    apply list_elem_of_lookup in Hin as [k Hk].
    apply lookup_zip_Some in Hk as [Hseq Hk].
    apply lookup_seq in Hseq as [-> _]. simpl in Hk.
    unfold defined_module in Hdef. simpl in Hdef.
    destruct od as [d|]; [|done]. injection Hdef as <-.
    exists k, d. split; [done|]. split; [done|]. split; [done|].
    split; [simpl; by rewrite length_map, length_seq|].
    intros j sm Hj. simpl in Hj.
    rewrite list_lookup_fmap in Hj.
    destruct (seq 0 (SUB_MODULE_COUNT (def_module_type d)) !! j) as [j'|]
      eqn:Hj'; [|done].
    apply lookup_seq in Hj' as [-> _]. simpl in Hj. by injection Hj as <-.
  - intros p q m m'. apply (registered_indexes_increasing 0).
  - intros Hall. split; [by apply registered_count|].
    intros i d Hi. by rewrite (registered_at_position 0 _ i d Hall Hi).
Qed.

Lemma X21_define_modules_contents_witness :
  index (define_modules [Some Right1; Some tail_def] MaxyController_init)
    !! 1%nat
  = Some (MaxyModule_init Class_MaxyModule_2x4x7seg 1).
Proof.
  pose proof (X21_define_modules_contents [Some Right1; Some tail_def]
                MaxyController_init) as H.
  cbv zeta in H. destruct H as (_ & _ & _ & H).
  destruct H as [_ H]; [repeat constructor; by eexists|].
  apply (H 1%nat tail_def). reflexivity.
Defined.

(** X22: registering again starts over.  The result of [define_modules]
    depends on the earlier controller only through its port: all earlier
    modules and names are gone, and with them every cached target and
    intensity; registering the empty list leaves no module and no
    name. *)
Theorem X22_define_modules_replaces
    (module_definitions earlier : list (option MaxModuleDef))
    (c : MaxyController) :
  define_modules module_definitions (define_modules earlier c)
  = define_modules module_definitions c
  /\ (forall c0 : MaxyController,
        _serial c0 = _serial c ->
        define_modules module_definitions c0
        = define_modules module_definitions c)
  /\ index (define_modules [] c) = []
  /\ name (define_modules [] c) = ∅.
Proof.
  assert (forall c0 : MaxyController,
            _serial c0 = _serial c ->
            define_modules module_definitions c0
            = define_modules module_definitions c) as Hport.
  { intros c0 Hc0. unfold define_modules. by rewrite Hc0. }
  split; [apply Hport, define_modules_serial|]. by split.
Qed.

Lemma X22_define_modules_replaces_witness :
  let unconnected := define_modules [Some tail_def] MaxyController_init in
  cached_target (fst (MaxySubModule__set_target 0 1 42 unconnected)) 0 1
  = Some 42
  /\ define_modules [Some Right1]
       (fst (MaxySubModule__set_target 0 1 42 unconnected))
     = define_modules [Some Right1] unconnected.
Proof.
  split; [reflexivity|].
  apply (X22_define_modules_replaces [Some Right1] []
           (define_modules [Some tail_def] MaxyController_init)).
  reflexivity.
Defined.

(** ** Names *)

Lemma ref_resolves_app (modules extra : list MaxyModule) (u : unit_ref) :
  ref_resolves modules u -> ref_resolves (modules ++ extra) u.
Proof.
  destruct u as [pos|pos sub]; intros (m & Hm & Hsub); exists m;
    (split; [by apply lookup_app_l_Some | done]).
Qed.

Lemma MaxyModule_init_sub_module (cls : module_class) (i : Z) (k : nat) :
  (k < SUB_MODULE_COUNT cls)%nat ->
  is_Some (sub_modules (MaxyModule_init cls i) !! k).
Proof.
  intros Hk. simpl. rewrite list_lookup_fmap.
  by rewrite lookup_seq_lt by done.
Qed.

Lemma fold_name_sub_module_resolves (modules : list MaxyModule) (pos : nat)
    (entries : list (option string * nat)) (d : gmap string unit_ref) :
  map_Forall (fun _ u => ref_resolves modules u) d ->
  Forall (fun entry => ref_resolves modules (SubModuleRef pos (snd entry)))
         entries ->
  map_Forall (fun _ u => ref_resolves modules u)
    (fold_left (name_sub_module pos) entries d).
Proof.
  intros Hd Hentries. revert d Hd.
  induction Hentries as [|entry entries Hentry _ IH]; intros d Hd; [done|].
  simpl. apply IH. unfold name_sub_module.
  destruct (truthy_name (fst entry)); [|done].
  by apply map_Forall_insert_2.
Qed.

Lemma define_step_names_resolve (c : MaxyController)
    (entry : nat * option MaxModuleDef) :
  names_resolve c -> names_resolve (define_step c entry).
Proof.
  unfold names_resolve, define_step. intros Hc.
  destruct (snd entry) as [module_def|]; [|done]. simpl.
  set (cls := def_module_type module_def).
  set (new_module := MaxyModule_init cls (Z.of_nat (fst entry))).
  set (modules := index c ++ [new_module]).
  assert (modules !! length (index c) = Some new_module) as Hnew
    by apply list_lookup_middle, eq_refl.
  assert (map_Forall (fun _ u => ref_resolves modules u) (name c)) as Hold.
  { eapply map_Forall_impl; [exact Hc|].
    intros item u. apply ref_resolves_app. }
  assert (map_Forall (fun _ u => ref_resolves modules u)
            match truthy_name (def_name module_def) with
            | Some n => <[n := ModuleRef (length (index c))]> (name c)
            | None => name c
            end) as Hnamed.
  { destruct (truthy_name (def_name module_def)); [|done].
    apply map_Forall_insert_2; [|done].
    exists new_module. split; [done|].
    apply MaxyModule_init_sub_module. by destruct cls; simpl; lia. }
  destruct (1 <? SUB_MODULE_COUNT cls)%nat; [|done].
  destruct (def_sub_module_names module_def) as [[|n ns]|]; try done.
  apply fold_name_sub_module_resolves; [done|].
  apply Forall_forall. intros [nm k] Hin. simpl.
  change (_ ∈ _) with
    ((nm, k) ∈ zip (n :: ns) (seq 0 (SUB_MODULE_COUNT cls))) in Hin.
  apply elem_of_zip_r, elem_of_seq in Hin.
  exists new_module. split; [done|].
  apply MaxyModule_init_sub_module. lia.
Qed.

Lemma define_modules_names_resolve
    (module_definitions : list (option MaxModuleDef)) (c : MaxyController) :
  names_resolve (define_modules module_definitions c).
Proof.
  unfold define_modules.
  assert (names_resolve {| _serial := _serial c; index := []; name := ∅ |})
    as Hinit by apply map_Forall_empty.
  revert Hinit.
  generalize {| _serial := _serial c; index := []; name := ∅ |}.
  induction (zip (seq 0 (length module_definitions)) module_definitions)
    as [|entry entries IH]; intros c0 Hc0; [done|].
  simpl. by apply IH, define_step_names_resolve.
Qed.

Lemma ref_resolves_shape (modules modules' : list MaxyModule) (u : unit_ref) :
  module_shape <$> modules' = module_shape <$> modules ->
  ref_resolves modules u -> ref_resolves modules' u.
Proof.
  intros Hshape.
  assert (forall pos sub m,
            modules !! pos = Some m -> is_Some (sub_modules m !! sub) ->
            exists m', modules' !! pos = Some m'
                       /\ is_Some (sub_modules m' !! sub)) as Hsame.
  { intros pos sub m Hm [sm Hsm].
    assert ((module_shape <$> modules') !! pos = Some (module_shape m))
      as Hpos by (by rewrite Hshape, list_lookup_fmap, Hm).
    rewrite list_lookup_fmap in Hpos.
    destruct (modules' !! pos) as [m'|]; [|done]. simpl in Hpos.
    exists m'. split; [done|].
    unfold module_shape in Hpos. injection Hpos as _ _ Hids.
    assert ((sub_module_id <$> sub_modules m') !! sub
            = Some (sub_module_id sm)) as Hsub
      by (by rewrite Hids, list_lookup_fmap, Hsm).
    rewrite list_lookup_fmap in Hsub.
    by destruct (sub_modules m' !! sub). }
  destruct u as [pos|pos sub]; intros (m & Hm & Hsub);
    destruct (Hsame _ _ _ Hm Hsub) as (m' & Hm' & Hsub'); by exists m'.
Qed.

Lemma names_resolve_shape (c c' : MaxyController) :
  name c' = name c ->
  module_shape <$> index c' = module_shape <$> index c ->
  names_resolve c -> names_resolve c'.
Proof.
  unfold names_resolve. intros -> Hshape Hc.
  eapply map_Forall_impl; [exact Hc|].
  intros item u. by apply ref_resolves_shape.
Qed.

Lemma module_target_op_state (immediate : bool) (c : MaxyController)
    (pos : nat) (value : Z) :
  fst (module_target_op immediate pos value c) = c
  \/ fst (module_target_op immediate pos value c)
     = fst (sub_module_target_op immediate pos 0 value c).
Proof.
  destruct (index c !! pos) as [m|] eqn:Hm.
  - destruct (ALLOW_MAIN_MODULE_TARGET_CHANGES (module_class_of m))
      eqn:Hallow.
    + right. by rewrite (module_target_op_allowed immediate c pos m).
    + left. unfold module_target_op.
      destruct immediate;
        unfold MaxyModule_set_immediate_target, MaxyModule__set_target;
        read_module Hm; by rewrite Hallow.
  - left. unfold module_target_op.
    destruct immediate;
      unfold MaxyModule_set_immediate_target, MaxyModule__set_target;
      by read_module Hm.
Qed.

(** X23: names never dangle.  After [define_modules] every name refers
    to a module or sub-module that is in [index], and assigning
    targets, immediate targets or intensities and sending messages keep
    it so. *)
Theorem X23_names_resolve (c : MaxyController) (immediate : bool)
    (pos sub : nat) (value : Z) (msg : bytes) :
  names_resolve c ->
  names_resolve (fst (sub_module_target_op immediate pos sub value c))
  /\ names_resolve (fst (module_target_op immediate pos value c))
  /\ names_resolve (fst (MaxyModule__set_intensity pos value c))
  /\ names_resolve (fst (send_message msg c))
  /\ (forall (module_definitions : list (option MaxModuleDef))
             (c0 : MaxyController),
        names_resolve (define_modules module_definitions c0)).
Proof.
  intros Hc.
  assert (forall s, names_resolve
                      (fst (sub_module_target_op immediate pos s value c)))
    as Hsub.
  { intros s. eapply names_resolve_shape; [| |exact Hc].
    - apply sub_module_target_op_name.
    - apply sub_module_target_op_shape. }
  split; [apply Hsub|]. split; [|split; [|split]].
  - by destruct (module_target_op_state immediate c pos value) as [->| ->].
  - eapply names_resolve_shape; [| |exact Hc].
    + apply MaxyModule__set_intensity_name.
    + apply MaxyModule__set_intensity_shape.
  - eapply names_resolve_shape; [| |exact Hc].
    + apply send_message_name.
    + by rewrite send_message_index.
  - apply define_modules_names_resolve.
Qed.

Lemma demo_controller_names_resolve : names_resolve demo_controller.
Proof.
  eapply names_resolve_shape; [| |apply (define_modules_names_resolve
    [Some Right1; Some tail_def] MaxyController_init)]; reflexivity.
Defined.

Lemma X23_names_resolve_witness :
  names_resolve (fst (MaxySubModule__set_target 1 0 5 demo_controller)).
Proof.
  apply (X23_names_resolve demo_controller false 1 0 5 []
           demo_controller_names_resolve).
Defined.

Lemma bind_raise_inv {A B : Type} (r : result A) (k : A -> result B)
    (e : exn) :
  bind r k = Raise e -> r = Raise e \/ exists a, r = Ok a /\ k a = Raise e.
Proof. destruct r as [a|e']; simpl; [eauto | intros [= ->]; by left]. Qed.

Lemma range_validate_int_no_lookup_error (val lo hi : Z) (n : string)
    (e : exn) :
  range_validate_int val lo hi n = Raise e -> is_lookup_error e = false.
Proof.
  unfold range_validate_int. destruct (_ && _); [done|]. by intros [= <-].
Qed.

Lemma to_bytes_no_lookup_error (v : Z) (n : nat) (signed : bool) (e : exn) :
  to_bytes v n signed = Raise e -> is_lookup_error e = false.
Proof.
  unfold to_bytes. destruct signed; destruct (_ && _); try done;
    by intros [= <-].
Qed.

(** Walks through the checks and conversions of an encoder that
    raised. *)
Ltac encoder_raised H :=
  repeat (apply bind_raise_inv in H as [H|(? & _ & H)];
          [first [by apply range_validate_int_no_lookup_error in H
                 | by apply to_bytes_no_lookup_error in H]|]);
  discriminate H.

Lemma sub_module_encoders_no_lookup_error (immediate : bool) (m s t : Z)
    (e : exn) :
  (if immediate
   then MaxyMessages.set_sub_module_immediate_target_message m s t
   else MaxyMessages.set_sub_module_target_message m s t) = Raise e ->
  is_lookup_error e = false.
Proof.
  destruct immediate; intros H.
  - unfold MaxyMessages.set_sub_module_immediate_target_message in H.
    encoder_raised H.
  - unfold MaxyMessages.set_sub_module_target_message in H.
    encoder_raised H.
Qed.

Lemma send_message_no_lookup_error (msg : bytes) (c : MaxyController)
    (e : exn) :
  snd (send_message msg c) = Raise e -> is_lookup_error e = false.
Proof.
  destruct (connected c) eqn:Hc.
  - destruct (send_message_sink msg c Hc) as [_ ->].
    unfold port_outcome, write_outcome.
    destruct (_serial c) as [s|]; [|by intros [= <-]].
    destruct (write_fault s) as [[]|]; [| |done]; by intros [= <-].
  - rewrite send_message_not_connected by done. by intros [= <-].
Qed.

Lemma sub_module_target_op_no_lookup_error (immediate : bool)
    (c : MaxyController) (pos sub : nat) (m : MaxyModule)
    (sm : MaxySubModule) (value : Z) (e : exn) :
  index c !! pos = Some m -> sub_modules m !! sub = Some sm ->
  snd (sub_module_target_op immediate pos sub value c) = Raise e ->
  is_lookup_error e = false.
Proof.
  intros Hm Hsm.
  destruct (decide (clamp value (TARGET_MIN (module_class_of m))
                                (TARGET_MAX (module_class_of m))
                    = _target sm)) as [Heq|Hne].
  { by rewrite (sub_module_target_op_unchanged c pos sub m sm). }
  unfold sub_module_target_op. destruct immediate.
  - rewrite (MaxySubModule_set_immediate_target_changed c pos sub m sm)
      by done.
    destruct (MaxyMessages.set_sub_module_immediate_target_message _ _ _)
      eqn:Henc.
    + apply send_message_no_lookup_error.
    + intros [= <-].
      exact (sub_module_encoders_no_lookup_error true _ _ _ _ Henc).
  - rewrite (MaxySubModule__set_target_changed c pos sub m sm) by done.
    destruct (MaxyMessages.set_sub_module_target_message _ _ _) eqn:Henc.
    + apply send_message_no_lookup_error.
    + intros [= <-].
      exact (sub_module_encoders_no_lookup_error false _ _ _ _ Henc).
Qed.

Lemma values_controller_names_resolve : names_resolve values_controller.
Proof.
  eapply names_resolve_shape; [| |apply (define_modules_names_resolve
    [Some values_def] MaxyController_init)]; reflexivity.
Defined.

(** X24: assigning through names.  For one of [DictObject]'s own
    attributes ([values], [clear], [get] and its double-underscore
    methods) [maxy.name.<item>.target = ..] raises [AttributeError] and
    changes nothing, whether or not a unit is registered under that
    name.  For any other name that does not start with two underscores:
    if it is not registered, the assignment raises [AttributeError] for
    that name and changes nothing; if it is registered, on a controller
    whose names resolve, the assignment never fails with a lookup error
    ([AttributeError] or [IndexError]): if it raises, it is the refusal
    of the module class, an error of the encoder, or an error of the
    port. *)
Theorem X24_set_target_by_name (c : MaxyController) (item : string)
    (value : Z) (immediate : bool) :
  names_resolve c ->
  (DictObject_own_attribute item = true ->
   set_target item value immediate c
   = (c, Raise (AttributeError (if immediate then "immediate_target"
                                else "target"))))
  /\ (DictObject_own_attribute item = false ->
      String.prefix "__" item = false ->
      (name c !! item = None ->
       set_target item value immediate c = (c, Raise (AttributeError item)))
      /\ (forall (u : unit_ref) (e : exn),
            name c !! item = Some u ->
            snd (set_target item value immediate c) = Raise e ->
            is_lookup_error e = false)).
Proof.
  intros Hc. split.
  { intros Hown. unfold set_target. by rewrite Hown. }
  intros Hown _. unfold set_target. rewrite Hown. split.
  - intros Hnone. unfold Mbind, DictObject_getattr.
    by rewrite Hnone.
  - intros u e Hu. unfold Mbind, DictObject_getattr.
    rewrite Hu.
    pose proof (map_Forall_lookup_1 _ _ _ _ Hc Hu) as Hres. simpl in Hres.
    destruct u as [pos|pos sub]; destruct Hres as (m & Hm & [sm Hsm]).
    + change ((if immediate
               then assign_immediate_target (ModuleRef pos) value
               else assign_target (ModuleRef pos) value) c)
        with (module_target_op immediate pos value c).
      destruct (ALLOW_MAIN_MODULE_TARGET_CHANGES (module_class_of m))
        eqn:Hallow.
      * rewrite (module_target_op_allowed immediate c pos m) by done.
        by apply (sub_module_target_op_no_lookup_error immediate c pos 0 m sm).
      * unfold module_target_op.
        destruct immediate;
          unfold MaxyModule_set_immediate_target, MaxyModule__set_target;
          read_module Hm; rewrite Hallow; by intros [= <-].
    + change ((if immediate
               then assign_immediate_target (SubModuleRef pos sub) value
               else assign_target (SubModuleRef pos sub) value) c)
        with (sub_module_target_op immediate pos sub value c).
      by apply (sub_module_target_op_no_lookup_error immediate c pos sub m sm).
Qed.

Lemma X24_set_target_by_name_witness :
  set_target "Left9" 5 false demo_controller
  = (demo_controller, Raise (AttributeError "Left9"))
  /\ set_target "values" 5 false values_controller
     = (values_controller, Raise (AttributeError "target")).
Proof.
  split.
  - apply (X24_set_target_by_name demo_controller "Left9" 5 false
             demo_controller_names_resolve); reflexivity.
  - apply (X24_set_target_by_name values_controller "values" 5 false
             values_controller_names_resolve).
    reflexivity.
Defined.

Lemma define_modules_snoc (module_definitions : list (option MaxModuleDef))
    (x : option MaxModuleDef) (c : MaxyController) :
  define_modules (module_definitions ++ [x]) c
  = define_step (define_modules module_definitions c)
      (length module_definitions, x).
Proof.
  unfold define_modules.
  rewrite length_app, seq_app. simpl.
  rewrite zip_with_app by by rewrite length_seq.
  by rewrite fold_left_app.
Qed.

Lemma define_step_name_single (c : MaxyController) (i : nat)
    (d : MaxModuleDef) :
  (SUB_MODULE_COUNT (def_module_type d) <= 1)%nat
  \/ def_sub_module_names d = None ->
  name (define_step c (i, Some d))
  = match truthy_name (def_name d) with
    | Some n => <[n := ModuleRef (length (index c))]> (name c)
    | None => name c
    end.
Proof.
  intros Hsingle. unfold define_step. simpl.
  destruct Hsingle as [Hcount| ->].
  - by destruct (Nat.ltb_spec 1 (SUB_MODULE_COUNT (def_module_type d)));
      [lia|].
  - by destruct (1 <? _)%nat.
Qed.

(** X25: registering one more definition at the end.  An empty entry
    adds nothing.  A definition adds its fresh module at the end of
    [index], with the place of the definition as module index.  When
    the class has a single sub-module, or the definition gives no
    sub-module names, the only name written is the module's: a
    non-empty name then refers to the new module, replacing whatever it
    referred to, and all other names stay; a missing or empty name
    leaves the names as they were. *)
Theorem X25_define_modules_append
    (module_definitions : list (option MaxModuleDef)) (d : MaxModuleDef)
    (c : MaxyController) :
  let before := define_modules module_definitions c in
  let after := define_modules (module_definitions ++ [Some d]) c in
  define_modules (module_definitions ++ [None]) c = before
  /\ index after
     = index before
       ++ [MaxyModule_init (def_module_type d)
             (Z.of_nat (length module_definitions))]
  /\ ((SUB_MODULE_COUNT (def_module_type d) <= 1)%nat
      \/ def_sub_module_names d = None ->
      (forall n : string,
         truthy_name (def_name d) = Some n ->
         name after !! n = Some (ModuleRef (length (index before)))
         /\ (forall item : string,
               item <> n -> name after !! item = name before !! item))
      /\ (truthy_name (def_name d) = None -> name after = name before)).
Proof.
  cbv zeta. rewrite !define_modules_snoc. split; [done|]. split; [done|].
  intros Hsingle. rewrite define_step_name_single by done.
  split.
  - intros n ->. split; [apply lookup_insert_eq|].
    intros item Hne. by apply lookup_insert_ne.
  - by intros ->.
Qed.

Lemma X25_define_modules_append_witness :
  name (define_modules ([Some Right1] ++ [Some Right1]) MaxyController_init)
    !! "Right1"
  = Some (ModuleRef 1).
Proof.
  pose proof (X25_define_modules_append [Some Right1] Right1
                MaxyController_init) as H.
  cbv zeta in H. destruct H as (_ & _ & H).
  destruct H as [H _]; [left; simpl; lia|].
  apply (H "Right1"). reflexivity.
Defined.

(** ** Connecting and broadcasting *)

Lemma configure_module_types_loop (c : MaxyController) :
  configure_module_types c = for_each send_module_type (index c) c.
Proof. reflexivity. Qed.

Lemma set_module_type_ok (m : MaxyModule) :
  0 <= module_index m <= 63 ->
  MaxyMessages.set_module_type (module_index m)
    (MODULE_TYPE_ID (module_class_of m))
  = Ok (module_type_message m).
Proof.
  intros Hm. unfold MaxyMessages.set_module_type, module_type_message.
  rewrite !range_validate_int_in by (destruct (module_class_of m); simpl; lia).
  cbn [bind].
  by rewrite !to_bytes_1 by (destruct (module_class_of m); simpl; lia).
Qed.

Lemma send_module_type_valid (m : MaxyModule) (c : MaxyController) :
  0 <= module_index m <= 63 ->
  send_module_type m c = send_message (module_type_message m) c.
Proof.
  intros Hm. unfold send_module_type, Mbind, lift.
  by rewrite set_module_type_ok.
Qed.

Lemma send_message_port (msg : bytes) (c : MaxyController) (s : Serial) :
  _serial c = Some s ->
  exists extra : list bytes,
    _serial (fst (send_message msg c)) = Some (port_after s extra).
Proof.
  intros Hs. destruct (isOpen s) eqn:Hopen.
  - exists [frame msg]. by rewrite (send_message_connected msg c s).
  - exists []. rewrite send_message_not_connected
      by (unfold connected; by rewrite Hs).
    simpl. rewrite Hs. unfold port_after. rewrite app_nil_r. by destruct s.
Qed.

Lemma send_module_type_frame (m : MaxyModule) (c : MaxyController) :
  index (fst (send_module_type m c)) = index c
  /\ name (fst (send_module_type m c)) = name c
  /\ (forall s, _serial c = Some s ->
        exists extra : list bytes,
          _serial (fst (send_module_type m c)) = Some (port_after s extra))
  /\ (_serial c = None -> _serial (fst (send_module_type m c)) = None).
Proof.
  unfold send_module_type, Mbind, lift.
  destruct (MaxyMessages.set_module_type _ _) as [msg|e]; simpl.
  - split; [apply send_message_index|]. split; [apply send_message_name|].
    split; [intros s; apply send_message_port|].
    intros Hnone. rewrite send_message_not_connected; [done|].
    unfold connected. by rewrite Hnone.
  - split; [done|]. split; [done|]. split; [|done].
    intros s Hs. exists []. rewrite Hs. unfold port_after.
    rewrite app_nil_r. by destruct s.
Qed.

Lemma port_after_after (s : Serial) (extra extra' : list bytes) :
  port_after (port_after s extra) extra' = port_after s (extra ++ extra').
Proof. unfold port_after. simpl. by rewrite app_assoc. Qed.

Lemma for_each_send_module_type_frame (l : list MaxyModule)
    (c : MaxyController) :
  index (fst (for_each send_module_type l c)) = index c
  /\ name (fst (for_each send_module_type l c)) = name c
  /\ (forall s, _serial c = Some s ->
        exists extra : list bytes,
          _serial (fst (for_each send_module_type l c))
          = Some (port_after s extra))
  /\ (_serial c = None -> _serial (fst (for_each send_module_type l c)) = None).
Proof.
  revert c. induction l as [|m l IH]; intros c.
  - simpl. split; [done|]. split; [done|]. split; [|done].
    intros s Hs. exists []. rewrite Hs. unfold port_after.
    rewrite app_nil_r. by destruct s.
  - cbn [for_each]. unfold Mbind.
    destruct (send_module_type_frame m c) as (Hi & Hn & Hs & Hnone).
    destruct (send_module_type m c) as [c1 [[]|e]]; simpl in *.
    + destruct (IH c1) as (Hi' & Hn' & Hs' & Hnone').
      split; [congruence|]. split; [congruence|]. split.
      * intros s Hserial. destruct (Hs s Hserial) as [extra Hextra].
        destruct (Hs' _ Hextra) as [extra' Hextra'].
        exists (extra ++ extra'). by rewrite Hextra', port_after_after.
      * intros Hserial. by apply Hnone', Hnone.
    + done.
Qed.

Lemma for_each_send_module_type_ok (l : list MaxyModule)
    (c : MaxyController) :
  connected c = true -> port_outcome c = Ok tt ->
  Forall (fun m => 0 <= module_index m <= 63) l ->
  snd (for_each send_module_type l c) = Ok tt
  /\ sink (fst (for_each send_module_type l c))
     = sink c ++ ((fun m => frame (module_type_message m)) <$> l).
Proof.
  intros Hc Hport Hall. revert c Hc Hport.
  induction Hall as [|m l Hm _ IH]; intros c Hc Hport.
  - simpl. by rewrite app_nil_r.
  - cbn [for_each]. unfold Mbind. rewrite send_module_type_valid by done.
    destruct (send_message_sink (module_type_message m) c Hc)
      as [Hsink Hout].
    destruct (send_message_connected_after (module_type_message m) c)
      as [Hc1 Hport1].
    destruct (send_message (module_type_message m) c) as [c1 r1].
    simpl in Hsink, Hout, Hc1, Hport1. subst r1. rewrite Hport.
    cbv beta iota.
    destruct (IH c1) as [Hok Hsink1]; [congruence | congruence |].
    split; [done|]. rewrite Hsink1, Hsink, fmap_cons.
    by rewrite <- app_assoc.
Qed.

(** X26: [configure_module_types] sends one [SetModuleType] message per
    module, in the order of [index].  On a connected controller whose
    port does not fail and whose module indexes are all in 0..63 it
    returns normally and has handed over exactly the frames of 0x3A,
    module index, type id of the class.  With no module registered it
    returns normally without ever asking for the port.  Without an open
    port and with a first module whose index is in 0..63 it raises
    [IOError] and changes nothing.  It never changes the modules or the
    names. *)
Theorem X26_configure_module_types (c : MaxyController) :
  let r := configure_module_types c in
  (connected c = true -> port_outcome c = Ok tt ->
   Forall (fun m => 0 <= module_index m <= 63) (index c) ->
   snd r = Ok tt
   /\ sink (fst r)
      = sink c ++ ((fun m => frame (module_type_message m)) <$> index c))
  /\ (index c = [] -> r = (c, Ok tt))
  /\ (forall (m : MaxyModule) (rest : list MaxyModule),
        connected c = false -> index c = m :: rest ->
        0 <= module_index m <= 63 ->
        r = (c, Raise IOError))
  /\ index (fst r) = index c
  /\ name (fst r) = name c.
Proof.
  cbv zeta. rewrite configure_module_types_loop.
  split; [apply for_each_send_module_type_ok|]. split; [by intros ->|].
  split.
  - intros m rest Hc ->  Hm. cbn [for_each]. unfold Mbind.
    rewrite send_module_type_valid by done.
    by rewrite send_message_not_connected.
  - destruct (for_each_send_module_type_frame (index c) c) as (? & ? & _).
    by split.
Qed.

Lemma X26_configure_module_types_witness :
  sink (fst (configure_module_types demo_controller))
  = sink demo_controller
    ++ [[0xfd; 0x3a; 0; 3; 0xfe]; [0xfd; 0x3a; 1; 4; 0xfe]].
Proof.
  apply (X26_configure_module_types demo_controller);
    [reflexivity | reflexivity |].
  vm_compute index. repeat constructor; simpl; lia.
Defined.

(** X27: [connect] attaches the new port, whatever happens next: the
    controller's port afterwards is the given port plus what was handed
    to it, and the earlier port is gone.  The modules and the names are
    what they were, so every cached target survives a reconnect.  With
    an open port that does not fail and module indexes all in 0..63,
    [connect] returns normally and the port has received exactly the
    type message of each module, in order. *)
Theorem X27_connect (port : Serial) (c : MaxyController) :
  let r := connect port c in
  index (fst r) = index c
  /\ name (fst r) = name c
  /\ (forall p s : nat, cached_target (fst r) p s = cached_target c p s)
  /\ (exists extra : list bytes,
        _serial (fst r) = Some (port_after port extra))
  /\ (isOpen port = true -> write_fault port = None ->
      Forall (fun m => 0 <= module_index m <= 63) (index c) ->
      snd r = Ok tt
      /\ sink (fst r)
         = written port
           ++ ((fun m => frame (module_type_message m)) <$> index c)).
Proof.
  cbv zeta.
  set (attached := {| _serial := Some port; index := index c;
                      name := name c |}).
  assert (connect port c = for_each send_module_type (index c) attached)
    as -> by reflexivity.
  destruct (for_each_send_module_type_frame (index c) attached)
    as (Hi & Hn & Hs & _).
  split; [exact Hi|]. split; [exact Hn|]. split.
  { intros p s. by apply cached_target_index. }
  split; [by apply Hs|].
  intros Hopen Hfault Hall.
  apply (for_each_send_module_type_ok (index c) attached); [done| |done].
  unfold port_outcome, write_outcome. simpl. by rewrite Hfault.
Qed.

Lemma X27_connect_witness :
  sink (fst (connect open_port (fst (MaxySubModule__set_target 0 0 42
                                       demo_controller))))
  = [[0xfd; 0x3a; 0; 3; 0xfe]; [0xfd; 0x3a; 1; 4; 0xfe]]
  /\ cached_target
       (fst (connect open_port (fst (MaxySubModule__set_target 0 0 42
                                       demo_controller)))) 0 0
     = Some 42.
Proof.
  pose proof (X27_connect open_port
                (fst (MaxySubModule__set_target 0 0 42 demo_controller)))
    as H.
  cbv zeta in H. destruct H as (_ & _ & Hcache & _ & H). split.
  - apply H; [reflexivity | reflexivity |].
    vm_compute index. repeat constructor; simpl; lia.
  - rewrite Hcache. reflexivity.
Defined.

Lemma set_all_module_intensity_ok (intensity : Z) :
  0 <= intensity <= 15 ->
  MaxyMessages.set_all_module_intensity intensity = Ok [0x33; intensity].
Proof.
  intros Hi. unfold MaxyMessages.set_all_module_intensity.
  rewrite range_validate_int_in by done. cbn [bind].
  by rewrite to_bytes_1 by lia.
Qed.

(** X28: [set_global_intensity] with an intensity outside 0..15 raises
    the range error on "intensity" and changes nothing, connected or
    not.  With an intensity in 0..15 it raises [IOError] when there is
    no open port, and otherwise hands over exactly one frame, that of
    0x33, intensity.  It never writes to the modules: every cached
    intensity is what it was before the broadcast. *)
Theorem X28_set_global_intensity (intensity : Z) (c : MaxyController) :
  let r := set_global_intensity intensity c in
  (~ 0 <= intensity <= 15 ->
   r = (c, Raise (ValueError_range "intensity" intensity 0 15)))
  /\ (0 <= intensity <= 15 -> connected c = false ->
      r = (c, Raise IOError))
  /\ (0 <= intensity <= 15 -> connected c = true ->
      sink (fst r) = sink c ++ [frame [0x33; intensity]]
      /\ snd r = port_outcome c)
  /\ index (fst r) = index c
  /\ (forall p : nat, cached_intensity (fst r) p = cached_intensity c p).
Proof.
  cbv zeta. unfold set_global_intensity, Mbind, lift.
  assert (index
            (fst (match MaxyMessages.set_all_module_intensity intensity with
                  | Ok a => send_message a c
                  | Raise e => (c, Raise e)
                  end)) = index c) as Hindex.
  { destruct (MaxyMessages.set_all_module_intensity intensity); [|done].
    apply send_message_index. }
  split; [|split; [|split; [|split]]].
  - intros Hi. unfold MaxyMessages.set_all_module_intensity.
    by rewrite range_validate_int_out by done.
  - intros Hi Hc. rewrite set_all_module_intensity_ok by done.
    by apply send_message_not_connected.
  - intros Hi Hc. rewrite set_all_module_intensity_ok by done.
    by apply send_message_sink.
  - exact Hindex.
  - intros p. by apply cached_intensity_index.
Qed.

Lemma X28_set_global_intensity_witness :
  sink (fst (set_global_intensity 3 demo_controller))
  = sink demo_controller ++ [[0xfd; 0x33; 3; 0xfe]]
  /\ set_global_intensity 16 MaxyController_init
     = (MaxyController_init, Raise (ValueError_range "intensity" 16 0 15)).
Proof.
  split.
  - apply (X28_set_global_intensity 3 demo_controller); [lia | reflexivity].
  - apply (X28_set_global_intensity 16 MaxyController_init). lia.
Defined.
